(** * JobVision exploratory data analysis: the cleaning pipeline

    A shallow embedding of the decision logic of the repository:
    - [preprocess.py]: the column reshaper, the field translator, the
      missing-value fill and the type coercer of [preprocess_job_data];
    - the categorical normalizers [categorize_experience],
      [categorize_seniority] and [standardize_company_size];
    - the embedded-list parsers [parse_software_skills],
      [parse_academic_fields], [parse_language_skills] and
      [parse_degree_level];
    - the aggregations behind the experience and the company-size charts,
      [standardize_it_role] and [to_persian_numerals] of [config.py].

    Python strings are sequences of Unicode code points, table cells are the
    scalars that [pandas.read_csv] produces, and a raised exception is an
    explicit outcome. The pandas operations are those of the releases the
    script is written for (before 3.0): [astype(str)] turns NaN into the
    text [nan], and a fill in place on [df[col]] reaches the frame. What the
    libraries compute from tables of their own (the case tables of
    [str.lower], the numerals that [to_numeric] reads, the text of a
    number) is a parameter of the definitions that use it. *)

From Stdlib Require Import List Bool Ascii String NArith ZArith QArith Qabs Lia.
From Stdlib Require Import DecimalString Lqa.
Import ListNotations.

(** ** Python strings *)

Module PyStr.

Open Scope N_scope.

Definition codepoint := N.
Definition pystr := list codepoint.

(** Source literals are written as UTF-8 text and decoded to code points. *)
Fixpoint utf8_go (acc : N) (need : nat) (bs : list N) : pystr :=
  match bs with
  | [] => []
  | b :: bs' =>
    match need with
    | O => if b <? 128 then b :: utf8_go 0 0 bs'
           else if b <? 224 then utf8_go (b - 192) 1 bs'
           else if b <? 240 then utf8_go (b - 224) 2 bs'
           else utf8_go (b - 240) 3 bs'
    | S O => (acc * 64 + (b - 128)) :: utf8_go 0 0 bs'
    | S n => utf8_go (acc * 64 + (b - 128)) n bs'
    end
  end.

Definition utf8_decode (s : string) : pystr :=
  utf8_go 0 0 (map N_of_ascii (list_ascii_of_string s)).

(** [u "text"] stands for the code points of the literal. *)
Notation "'u' s" :=
  (ltac:(let v := eval vm_compute in (utf8_decode s%string) in exact v))
  (at level 1, s at level 0, only parsing).

Fixpoint str_eqb (a b : pystr) : bool :=
  match a, b with
  | [], [] => true
  | x :: a', y :: b' => (x =? y) && str_eqb a' b'
  | _, _ => false
  end.

(** Substring search and replacement, for a given way of matching one
    pattern character against one character of the text: exact equality
    for [str.replace] and [in], case-insensitive matching for the
    replacement done with [case=False]. *)
Section Matching.

Variable eqc : codepoint -> codepoint -> bool.

Fixpoint starts_with_by (p s : pystr) : bool :=
  match p, s with
  | [], _ => true
  | _ :: _, [] => false
  | a :: p', c :: s' => eqc a c && starts_with_by p' s'
  end.

Fixpoint contains_by (p s : pystr) : bool :=
  starts_with_by p s
  || match s with
     | [] => false
     | _ :: s' => contains_by p s'
     end.

(** Leftmost, non-overlapping replacement. [skip] counts the characters
    of the current match that are still to be passed over. An empty
    pattern matches between any two characters, as in Python. *)
Fixpoint replace_go (old new : pystr) (skip : nat) (s : pystr) : pystr :=
  match s with
  | [] => match skip, old with
          | O, [] => new
          | _, _ => []
          end
  | c :: s' =>
    match skip with
    | S k => replace_go old new k s'
    | O =>
      if starts_with_by old s
      then match old with
           | [] => new ++ c :: replace_go old new 0 s'
           | _ :: o' => new ++ replace_go old new (List.length o') s'
           end
      else c :: replace_go old new 0 s'
    end
  end.

Definition replace_by (old new s : pystr) : pystr := replace_go old new 0 s.

End Matching.

(** [p in s], [s.startswith(p)] and [s.replace(old, new)]. *)
Definition contains : pystr -> pystr -> bool := contains_by N.eqb.
Definition startswith (s p : pystr) : bool := starts_with_by N.eqb p s.
Definition replace (s old new : pystr) : pystr := replace_by N.eqb old new s.

(** Lower-casing restricted to the ASCII letters. Persian letters and
    digits have no case. *)
Definition ascii_lower_cp (c : codepoint) : codepoint :=
  if (65 <=? c) && (c <=? 90) then c + 32 else c.

Definition ascii_lower (s : pystr) : pystr := map ascii_lower_cp s.

(** How [re] with [IGNORECASE] matches the literal pattern character [p]
    against the text character [c], for an ASCII [p]: equal up to ASCII
    case, and besides the dotted and dotless I for [i], the long s for [s]
    and the Kelvin sign for [k]. *)
Definition ci_eq (p c : codepoint) : bool :=
  let lp := ascii_lower_cp p in
  (ascii_lower_cp c =? lp)
  || ((lp =? 105) && ((c =? 304) || (c =? 305)))
  || ((lp =? 115) && (c =? 383))
  || ((lp =? 107) && (c =? 8490)).

Definition contains_ci (p s : pystr) : bool := contains_by ci_eq p s.
Definition replace_ci (s old new : pystr) : pystr := replace_by ci_eq old new s.

(** The characters for which [str.isspace] holds. *)
Definition is_space (c : codepoint) : bool :=
  ((9 <=? c) && (c <=? 13)) || ((28 <=? c) && (c <=? 32))
  || (c =? 133) || (c =? 160) || (c =? 5760)
  || ((8192 <=? c) && (c <=? 8202))
  || (c =? 8232) || (c =? 8233) || (c =? 8239) || (c =? 8287) || (c =? 12288).

Fixpoint lstrip (s : pystr) : pystr :=
  match s with
  | [] => []
  | c :: s' => if is_space c then lstrip s' else s
  end.

Definition strip (s : pystr) : pystr := rev (lstrip (rev (lstrip s))).

End PyStr.

Import PyStr.

(** ** Python scalars *)

(** A float is NaN, an infinity or a finite number. NaN is the
    missing-value marker of pandas. Integers are the finite numbers with an
    integral value. *)
Inductive pyfloat :=
| NaN
| Inf (negative : bool)
| Fin (q : Q).

(** A table cell as [read_csv] yields it. *)
Inductive value :=
| VStr (s : pystr)
| VBool (b : bool)
| VNum (x : pyfloat).

(** [pd.isna] on a scalar. *)
Definition isna (v : value) : bool :=
  match v with
  | VNum NaN => true
  | _ => false
  end.

(** [isinstance(v, str)] *)
Definition is_str (v : value) : bool :=
  match v with
  | VStr _ => true
  | _ => false
  end.

(** [x <= k] and [k < x] for a float [x] and a numeric literal [k]: every
    comparison with NaN is false. *)
Definition fle (x : pyfloat) (k : Q) : bool :=
  match x with
  | NaN => false
  | Inf negative => negative
  | Fin q => Qle_bool q k
  end.

Definition flt_lit (k : Q) (x : pyfloat) : bool :=
  match x with
  | NaN => false
  | Inf negative => negb negative
  | Fin q => negb (Qle_bool q k)
  end.

(** The label used for "unspecified" throughout the repository. *)
Definition unspecified : pystr := u "نامشخص".

(** ** Categorical normalizers *)

Module Normalizers.

(** *** Experience bands ([visualize_work_experience.py]) *)

Definition band_intern : pystr := u "کارآموز / بدون سابقه".
Definition band_junior : pystr := u "کم‌تجربه (۱ تا ۳ سال)".
Definition band_mid : pystr := u "باتجربه (۳ تا ۷ سال)".
Definition band_senior : pystr := u "ارشد (۷ تا ۱۰ سال)".
Definition band_expert : pystr := u "بسیار باتجربه (بیش از ۱۰ سال)".

Definition categorize_experience (years : pyfloat) : pystr :=
  if isna (VNum years) then unspecified
  else if fle years 1 then band_intern
  else if flt_lit 1 years && fle years 3 then band_junior
  else if flt_lit 3 years && fle years 7 then band_mid
  else if flt_lit 7 years && fle years 10 then band_senior
  else band_expert.

(** The bands as the specification words them: an ordered table of ranges
    [lo < x <= hi], an absent bound being unbounded. *)
Record band := { band_lo : option Q; band_hi : option Q; band_label : pystr }.

Definition experience_bands : list band :=
  [ {| band_lo := None;    band_hi := Some 1;  band_label := band_intern |};
    {| band_lo := Some 1;  band_hi := Some 3;  band_label := band_junior |};
    {| band_lo := Some 3;  band_hi := Some 7;  band_label := band_mid |};
    {| band_lo := Some 7;  band_hi := Some 10; band_label := band_senior |};
    {| band_lo := Some 10; band_hi := None;    band_label := band_expert |} ]%Q.

Definition in_band (x : Q) (b : band) : bool :=
  match band_lo b with
  | None => true
  | Some lo => negb (Qle_bool x lo)
  end
  && match band_hi b with
     | None => true
     | Some hi => Qle_bool x hi
     end.

(** *** Seniority ([visualize_salary_by_seniority.py]) *)

Definition manager_keywords : list pystr :=
  [u "manager"; u "مدیر"; u "head"; u "سرپرست"; u "chief"; u "رئیس"].
Definition senior_keywords : list pystr := [u "senior"; u "ارشد"].
Definition junior_keywords : list pystr :=
  [u "junior"; u "کارآموز"; u "intern"; u "تازه"].

Definition label_manager : pystr := u "مدیر / سرپرست".
Definition label_senior : pystr := u "ارشد".
Definition label_junior : pystr := u "مقدماتی / کارآموز".
Definition label_mid : pystr := u "سطح میانی".

(** [any(keyword in title for keyword in keywords)] *)
Definition any_keyword_in (keywords : list pystr) (title : pystr) : bool :=
  existsb (fun keyword => contains keyword title) keywords.

Section Seniority.

(** [str.lower]: the Unicode case tables are those of the interpreter. *)
Variable lower : pystr -> pystr.

Definition categorize_seniority (title : value) : pystr :=
  match title with
  | VStr title =>
    let title := lower title in
    if any_keyword_in manager_keywords title then label_manager
    else if any_keyword_in senior_keywords title then label_senior
    else if any_keyword_in junior_keywords title then label_junior
    else label_mid
  | _ => unspecified
  end.

End Seniority.



(** *** Company size ([visualize_company_size.py]) *)

Definition tier_under_10 : pystr := u "زیر ۱۰ نفر".
Definition tier_11_50 : pystr := u "۱۱ تا ۵۰ نفر".
Definition tier_51_200 : pystr := u "۵۱ تا ۲۰۰ نفر".
Definition tier_201_500 : pystr := u "۲۰۱ تا ۵۰۰ نفر".
Definition tier_501_1000 : pystr := u "۵۰۱ تا ۱۰۰۰ نفر".
Definition tier_over_1000 : pystr := u "بیش از ۱۰۰۰ نفر".

Definition standardize_company_size (size_str : value) : pystr :=
  match size_str with
  | VStr size_str =>
    let normalized_str :=
      replace (replace (replace size_str (u " ") []) (u "تا") []) (u "نفر") [] in
    if contains (u "زیر۱۰") normalized_str || contains (u "زیر10") normalized_str
    then tier_under_10
    else if contains (u "۱۱۵۰") normalized_str || contains (u "1150") normalized_str
    then tier_11_50
    else if contains (u "۵۱২০০") normalized_str || contains (u "51200") normalized_str
    then tier_51_200
    else if contains (u "۲۰۱۵۰۰") normalized_str || contains (u "201500") normalized_str
    then tier_201_500
    else if contains (u "۵۰۱۱۰۰۰") normalized_str || contains (u "5011000") normalized_str
    then tier_501_1000
    else if contains (u "بیشاز۱۰۰۰") normalized_str || contains (u "بیشاز1000") normalized_str
    then tier_over_1000
    else unspecified
  | _ => unspecified
  end.

End Normalizers.

(** ** Python dictionaries and exceptions *)

Module PyDict.

(** A [dict] keeps its keys in the order of their first insertion; setting
    a key that is present overwrites the value in place. *)
Fixpoint dict_set {V : Type} (d : list (pystr * V)) (k : pystr) (v : V)
  : list (pystr * V) :=
  match d with
  | [] => [(k, v)]
  | (k', v') :: d' =>
    if str_eqb k' k then (k', v) :: d' else (k', v') :: dict_set d' k v
  end.

(** A dictionary display [{k1: v1, k2: v2, ...}] and [dict(pairs)]. *)
Definition dict_of_items {V : Type} (items : list (pystr * V))
  : list (pystr * V) :=
  fold_left (fun d kv => dict_set d (fst kv) (snd kv)) items [].

Fixpoint dict_find {V : Type} (d : list (pystr * V)) (k : pystr) : option V :=
  match d with
  | [] => None
  | (k', v) :: d' => if str_eqb k' k then Some v else dict_find d' k
  end.

End PyDict.

Import PyDict.

Inductive exn := JSONDecodeError | TypeError | AttributeError | KeyError.

(** The outcome of evaluating Python code: a value, or a raised exception. *)
Inductive outcome (A : Type) :=
| Ret (a : A)
| Raise (e : exn).

Arguments Ret {A} a.
Arguments Raise {A} e.

Definition bind {A B : Type} (c : outcome A) (k : A -> outcome B) : outcome B :=
  match c with
  | Ret a => k a
  | Raise e => Raise e
  end.

Notation "x <- c ;; k" := (bind c (fun x => k))
  (at level 61, c at next level, right associativity).

(** [try: body except (e1, e2, ...): handler] *)
Definition try_except {A : Type} (body : outcome A) (caught : exn -> bool)
  (handler : outcome A) : outcome A :=
  match body with
  | Ret a => Ret a
  | Raise e => if caught e then handler else Raise e
  end.

(** ** JSON decoding ([json.loads]) *)

Module Json.

Open Scope N_scope.

#[warnings="-register-all"]
Inductive json :=
| JNull
| JBool (b : bool)
| JInt (z : Z)
| JFloat (x : pyfloat)
| JStr (s : pystr)
| JArr (items : list json)
| JObj (members : list (pystr * json)).

Inductive token :=
| TLBrace | TRBrace | TLBracket | TRBracket | TColon | TComma
| TAtom (j : json).

(** *** Scanning *)

Definition is_json_ws (c : codepoint) : bool :=
  (c =? 32) || (c =? 9) || (c =? 10) || (c =? 13).

Definition is_digit (c : codepoint) : bool := (48 <=? c) && (c <=? 57).

Definition hex_value (c : codepoint) : option N :=
  if is_digit c then Some (c - 48)
  else if (97 <=? c) && (c <=? 102) then Some (c - 87)
  else if (65 <=? c) && (c <=? 70) then Some (c - 55)
  else None.

(** The four hexadecimal digits after a backslash-u. *)
Definition decode_uXXXX (s : pystr) : option N :=
  match s with
  | a :: b :: c :: d :: _ =>
    match hex_value a, hex_value b, hex_value c, hex_value d with
    | Some a, Some b, Some c, Some d => Some (((a * 16 + b) * 16 + c) * 16 + d)
    | _, _, _, _ => None
    end
  | _ => None
  end.

Definition escape_char (e : codepoint) : option codepoint :=
  if e =? 34 then Some 34        (* quotation mark *)
  else if e =? 92 then Some 92   (* backslash *)
  else if e =? 47 then Some 47   (* slash *)
  else if e =? 98 then Some 8    (* b *)
  else if e =? 102 then Some 12  (* f *)
  else if e =? 110 then Some 10  (* n *)
  else if e =? 114 then Some 13  (* r *)
  else if e =? 116 then Some 9   (* t *)
  else None.

Definition emit (c : codepoint) (r : option (pystr * nat)) : option (pystr * nat) :=
  match r with
  | Some (str, used) => Some (c :: str, S used)
  | None => None
  end.

Definition pass (r : option (pystr * nat)) : option (pystr * nat) :=
  match r with
  | Some (str, used) => Some (str, S used)
  | None => None
  end.

(** [scanstring] in strict mode, started after the opening quote: the
    decoded content and the number of characters read, closing quote
    included. [skip] counts the characters of the current escape that are
    still to be passed over. *)
Fixpoint scanstring (skip : nat) (s : pystr) : option (pystr * nat) :=
  match s with
  | [] => None
  | c :: s' =>
    match skip with
    | S k => pass (scanstring k s')
    | O =>
      if c =? 34 then Some ([], 1%nat)
      else if c =? 92 then
        match s' with
        | [] => None
        | e :: s'' =>
          if e =? 117 then
            match decode_uXXXX s'' with
            | None => None
            | Some uni =>
              if (55296 <=? uni) && (uni <=? 56319)
                 && starts_with_by N.eqb [92; 117] (skipn 4 s'')
              then
                match decode_uXXXX (skipn 6 s'') with
                | None => None
                | Some uni2 =>
                  if (56320 <=? uni2) && (uni2 <=? 57343)
                  then emit (65536 + ((uni - 55296) * 1024 + (uni2 - 56320)))
                            (scanstring 11 s')
                  else emit uni (scanstring 5 s')
                end
              else emit uni (scanstring 5 s')
            end
          else
            match escape_char e with
            | Some ch => emit ch (scanstring 1 s')
            | None => None
            end
        end
      else if c <? 32 then None
      else emit c (scanstring 0 s')
    end
  end.

Fixpoint take_digits (s : pystr) : list N * pystr :=
  match s with
  | c :: s' =>
    if is_digit c
    then let (ds, rest) := take_digits s' in ((c - 48) :: ds, rest)
    else ([], s)
  | [] => ([], [])
  end.

Definition digits_value (ds : list N) : N :=
  fold_left (fun acc d => acc * 10 + d) ds 0.

(** The integer part of a number: a single zero, or a non-zero digit
    followed by digits. *)
Definition take_integer (s : pystr) : option (list N * pystr) :=
  match s with
  | c :: s' =>
    if c =? 48 then Some ([0], s')
    else if is_digit c then Some (take_digits s)
    else None
  | [] => None
  end.

Definition take_fraction (s : pystr) : option (list N * pystr) :=
  match s with
  | c :: s' =>
    if c =? 46 then
      match take_digits s' with
      | ([], _) => None
      | (ds, rest) => Some (ds, rest)
      end
    else None
  | [] => None
  end.

(** The exponent: its sign, its digits and what follows. *)
Definition take_exponent (s : pystr) : option (bool * list N * pystr) :=
  match s with
  | c :: s' =>
    if (c =? 101) || (c =? 69) then
      let (negative, s'') :=
        match s' with
        | sg :: t => if sg =? 45 then (true, t)
                     else if sg =? 43 then (false, t)
                     else (false, s')
        | [] => (false, s')
        end in
      match take_digits s'' with
      | ([], _) => None
      | (ds, rest) => Some (negative, ds, rest)
      end
    else None
  | [] => None
  end.

(** The exact decimal value of a float literal: the digits of the integer
    and fraction parts, scaled by the exponent. *)
Definition decimal_value (negative : bool) (int_ds frac_ds : list N)
  (exp_negative : bool) (exp_ds : list N) : Q :=
  let mantissa := Z.of_N (digits_value (int_ds ++ frac_ds)) in
  let e := Z.of_N (digits_value exp_ds) in
  let shift := ((if exp_negative then Z.opp e else e)
                - Z.of_nat (List.length frac_ds))%Z in
  (inject_Z (if negative then Z.opp mantissa else mantissa) * Qpower 10 shift)%Q.

(** A number at the head of [s]: its value and its length. Without
    fraction and exponent it is an integer, otherwise a float. *)
Definition scan_number (s : pystr) : option (json * nat) :=
  let (negative, s1) :=
    match s with
    | c :: t => if c =? 45 then (true, t) else (false, s)
    | [] => (false, s)
    end in
  match take_integer s1 with
  | None => None
  | Some (int_ds, s2) =>
    let (frac_ds, s3) :=
      match take_fraction s2 with
      | Some (ds, rest) => (ds, rest)
      | None => ([], s2)
      end in
    let '(exp_negative, exp_ds, s4) :=
      match take_exponent s3 with
      | Some r => r
      | None => (false, [], s3)
      end in
    let used := (List.length s - List.length s4)%nat in
    match frac_ds, exp_ds with
    | [], [] =>
      let n := Z.of_N (digits_value int_ds) in
      Some (JInt (if negative then Z.opp n else n), used)
    | _, _ =>
      Some (JFloat (Fin (decimal_value negative int_ds frac_ds exp_negative exp_ds)),
            used)
    end
  end.

(** One token whose first character is [c], [s'] being what follows [c]:
    the token and how many characters of [s'] belong to it. *)
Definition scan_token (c : codepoint) (s' : pystr) : option (token * nat) :=
  if c =? 123 then Some (TLBrace, 0%nat)
  else if c =? 125 then Some (TRBrace, 0%nat)
  else if c =? 91 then Some (TLBracket, 0%nat)
  else if c =? 93 then Some (TRBracket, 0%nat)
  else if c =? 58 then Some (TColon, 0%nat)
  else if c =? 44 then Some (TComma, 0%nat)
  else if c =? 34 then
    match scanstring 0 s' with
    | Some (str, used) => Some (TAtom (JStr str), used)
    | None => None
    end
  else if (c =? 110) && starts_with_by N.eqb (u "ull") s'
  then Some (TAtom JNull, 3%nat)
  else if (c =? 116) && starts_with_by N.eqb (u "rue") s'
  then Some (TAtom (JBool true), 3%nat)
  else if (c =? 102) && starts_with_by N.eqb (u "alse") s'
  then Some (TAtom (JBool false), 4%nat)
  else
    match scan_number (c :: s') with
    | Some (j, used) => Some (TAtom j, pred used)
    | None =>
      if (c =? 78) && starts_with_by N.eqb (u "aN") s'
      then Some (TAtom (JFloat NaN), 2%nat)
      else if (c =? 73) && starts_with_by N.eqb (u "nfinity") s'
      then Some (TAtom (JFloat (Inf false)), 7%nat)
      else if (c =? 45) && starts_with_by N.eqb (u "Infinity") s'
      then Some (TAtom (JFloat (Inf true)), 8%nat)
      else None
    end.

Fixpoint lex (skip : nat) (s : pystr) : option (list token) :=
  match s with
  | [] => Some []
  | c :: s' =>
    match skip with
    | S k => lex k s'
    | O =>
      if is_json_ws c then lex 0 s'
      else
        match scan_token c s' with
        | Some (t, used) => option_map (cons t) (lex used s')
        | None => None
        end
    end
  end.

(** *** Parsing *)

(** An open container: the items read so far, latest first. An object
    whose next member value is awaited also holds the key of that member. *)
Inductive frame :=
| FArr (done : list json)
| FObj (done : list (pystr * json))
| FMember (done : list (pystr * json)) (key : pystr).

Inductive mode :=
| Value        (* a value is expected *)
| ArrStart     (* after an opening bracket: a value or the closing bracket *)
| ObjStart     (* after an opening brace: a key or the closing brace *)
| ObjKey       (* after a comma in an object: a key *)
| ObjColon (key : pystr)
| After        (* after a value in a container: a comma or the closer *)
| Done (j : json)
| Failed.

Definition complete (j : json) (stack : list frame) : mode * list frame :=
  match stack with
  | [] => (Done j, [])
  | FArr done :: st => (After, FArr (j :: done) :: st)
  | FMember done key :: st => (After, FObj ((key, j) :: done) :: st)
  | FObj _ :: _ => (Failed, stack)
  end.

Definition open_value (t : token) (stack : list frame) : mode * list frame :=
  match t with
  | TAtom j => complete j stack
  | TLBracket => (ArrStart, FArr [] :: stack)
  | TLBrace => (ObjStart, FObj [] :: stack)
  | _ => (Failed, stack)
  end.

Definition step (st : mode * list frame) (t : token) : mode * list frame :=
  let (m, stack) := st in
  match m with
  | Value => open_value t stack
  | ArrStart =>
    match t, stack with
    | TRBracket, FArr _ :: rest => complete (JArr []) rest
    | _, _ => open_value t stack
    end
  | ObjStart =>
    match t, stack with
    | TRBrace, FObj _ :: rest => complete (JObj []) rest
    | TAtom (JStr key), _ => (ObjColon key, stack)
    | _, _ => (Failed, stack)
    end
  | ObjKey =>
    match t with
    | TAtom (JStr key) => (ObjColon key, stack)
    | _ => (Failed, stack)
    end
  | ObjColon key =>
    match t, stack with
    | TColon, FObj done :: rest => (Value, FMember done key :: rest)
    | _, _ => (Failed, stack)
    end
  | After =>
    match t, stack with
    | TComma, FArr _ :: _ => (Value, stack)
    | TRBracket, FArr done :: rest => complete (JArr (rev done)) rest
    | TComma, FObj _ :: _ => (ObjKey, stack)
    | TRBrace, FObj done :: rest => complete (JObj (dict_of_items (rev done))) rest
    | _, _ => (Failed, stack)
    end
  | Done _ => (Failed, stack)
  | Failed => (Failed, stack)
  end.

Definition parse (tokens : list token) : option json :=
  match fold_left step tokens (Value, []) with
  | (Done j, _) => Some j
  | _ => None
  end.

(** [json.loads(s)] for a [str] argument: the decoded value, or
    [JSONDecodeError]. The limits of the interpreter on the depth of
    nesting and on the length of an integer literal are left out. *)
Definition loads (s : pystr) : outcome json :=
  match lex 0 s with
  | None => Raise JSONDecodeError
  | Some tokens =>
    match parse tokens with
    | Some j => Ret j
    | None => Raise JSONDecodeError
    end
  end.

(** *** Python operations on decoded values *)

(** The smallest positive float is [2^-1074]; a literal of at most half
    that magnitude is read as zero. *)
Definition reads_as_zero (q : Q) : bool :=
  Qle_bool (Qabs q) (Qpower 2 (-1075)).

(** [bool(v)] *)
Definition truth (v : json) : bool :=
  match v with
  | JNull => false
  | JBool b => b
  | JInt z => negb (z =? 0)%Z
  | JFloat (Fin q) => negb (reads_as_zero q)
  | JFloat _ => true
  | JStr s => negb (str_eqb s [])
  | JArr items => match items with [] => false | _ => true end
  | JObj members => match members with [] => false | _ => true end
  end.

(** [obj.get(key)]: only a [dict] has the method; a missing key gives
    [None]. *)
Definition py_get (obj : json) (key : pystr) : outcome json :=
  match obj with
  | JObj members =>
    Ret (match dict_find members key with Some v => v | None => JNull end)
  | _ => Raise AttributeError
  end.

(** [obj.get(key, '')] *)
Definition py_get_default (obj : json) (key : pystr) : outcome json :=
  match obj with
  | JObj members =>
    Ret (match dict_find members key with Some v => v | None => JStr [] end)
  | _ => Raise AttributeError
  end.

(** [v.strip()]: only a [str] has the method. *)
Definition py_strip (v : json) : outcome pystr :=
  match v with
  | JStr s => Ret (strip s)
  | _ => Raise AttributeError
  end.

(** [key in container] for a [str] key. *)
Definition py_in (key : pystr) (container : json) : outcome bool :=
  match container with
  | JObj members =>
    Ret (match dict_find members key with Some _ => true | None => false end)
  | JArr items =>
    Ret (existsb (fun item => match item with
                              | JStr s => str_eqb s key
                              | _ => false
                              end) items)
  | JStr s => Ret (contains key s)
  | _ => Raise TypeError
  end.

(** [container[key]] for a [str] key. *)
Definition py_getitem (container : json) (key : pystr) : outcome json :=
  match container with
  | JObj members =>
    match dict_find members key with
    | Some v => Ret v
    | None => Raise KeyError
    end
  | _ => Raise TypeError
  end.

End Json.

Import Json.

(** ** Embedded-list parsers *)

Module Parsers.

Definition decode_errors (e : exn) : bool :=
  match e with
  | JSONDecodeError | TypeError => true
  | _ => false
  end.

(** The single quote and the double quote. *)
Definition single_quote : pystr := [39%N].
Definition double_quote : pystr := [34%N].

(** *** [parse_software_skills] ([visualize_top_skills.py]) *)

(** The list comprehension over [skills_list]: the filter is evaluated
    first, the element expression only where the filter holds. *)
Fixpoint valid_skills (skills_list : list json) : outcome (list pystr) :=
  match skills_list with
  | [] => Ret []
  | skill :: rest =>
    title <- py_get skill (u "TitleFa") ;;
    keep <- (if truth title
             then title' <- py_get skill (u "TitleFa") ;;
                  stripped <- py_strip title' ;;
                  Ret (negb (str_eqb stripped []))
             else Ret false) ;;
    if keep
    then title'' <- py_get_default skill (u "TitleFa") ;;
         stripped <- py_strip title'' ;;
         more <- valid_skills rest ;;
         Ret (stripped :: more)
    else valid_skills rest
  end.

(** The body of a [try] either returns or falls through to the code after
    the statement. *)
Definition returned_or {A : Type} (fallthrough : A) (body : outcome (option A))
  : outcome A :=
  r <- body ;;
  match r with
  | Some a => Ret a
  | None => Ret fallthrough
  end.

Definition parse_software_skills (skills_json : value) : outcome (list pystr) :=
  if isna skills_json || negb (is_str skills_json) then Ret [] else
  match skills_json with
  | VStr skills_json =>
    returned_or []
      (try_except
         (skills_list <- loads (replace skills_json single_quote double_quote) ;;
          match skills_list with
          | JArr skills_list =>
            skills <- valid_skills skills_list ;;
            Ret (Some skills)
          | _ => Ret None
          end)
         decode_errors
         (Ret (Some [])))
  | _ => Ret []
  end.

(** *** [parse_degree_level] ([visualize_experience_vs_education.py]) *)

Definition parse_degree_level (academic_json : value) : outcome json :=
  if isna academic_json || negb (is_str academic_json)
  then Ret (JStr unspecified) else
  match academic_json with
  | VStr academic_json =>
    returned_or (JStr unspecified)
      (try_except
         (data <- loads (replace academic_json single_quote double_quote) ;;
          match data with
          | JArr (first :: _) =>
            present <- py_in (u "DegreeLevel") first ;;
            if present
            then level <- py_getitem first (u "DegreeLevel") ;;
                 Ret (Some level)
            else Ret None
          | _ => Ret None
          end)
         decode_errors
         (Ret (Some (JStr unspecified))))
  | _ => Ret (JStr unspecified)
  end.

End Parsers.

(** ** The cleaning pipeline ([preprocess.py]) *)

Module Pipeline.

(** A data frame: the length of its index and its labelled columns, each
    holding one cell per row. *)
Record DataFrame := { nrows : nat; columns : list (pystr * list value) }.

Definition labels (df : DataFrame) : list pystr := map fst (columns df).

(** [col in df.columns] *)
Definition has_column (df : DataFrame) (col : pystr) : bool :=
  existsb (str_eqb col) (labels df).

(** [df[col] = f(df[col])] *)
Definition assign_column (df : DataFrame) (col : pystr)
  (f : list value -> list value) : DataFrame :=
  {| nrows := nrows df;
     columns := map (fun c => if str_eqb (fst c) col
                              then (fst c, f (snd c)) else c)
                    (columns df) |}.

(** [if col in df.columns: df[col] = f(df[col])] *)
Definition update_column (f : list value -> list value) (df : DataFrame)
  (col : pystr) : DataFrame :=
  if has_column df col then assign_column df col f else df.

(** What a loop of guarded column updates does to one column: the updates
    whose label is that of the column, in the order of the loop. *)
Definition on_label {A : Type} (key : A -> pystr)
  (F : A -> list value -> list value) (items : list A)
  (l : pystr) (vs : list value) : list value :=
  fold_left (fun vs it => if str_eqb l (key it) then F it vs else vs) items vs.

(** *** 1. The translation dictionary *)

Definition english_to_persian_map : list (pystr * pystr) :=
  dict_of_items
    [ (u ".net", u "دات نت");
      (u "net.", u "دات نت");
      (u "net core", u "دات نت کر");
      (u "HSE", u "بهداشت، ایمنی و محیط زیست");
      (u "UI/UX", u "رابط و تجربه کاربری");
      (u "DevOps", u "دواپس");
      (u "Sys-Admin", u "ادمین سیستم");
      (u "MDF", u "ام‌دی‌اف");
      (u "Back-End", u "بک-اند");
      (u "Front-End", u "فرانت-اند");
      (u "Full-Stack", u "فول-استک");
      (u "IT", u "فناوری اطلاعات");
      (u "/", u "،");
      (u "/", u "-");
      (u "and", u "و");
      (u "with", u "با");
      (u "for", u "برای");
      (u "coremvc", u "دات‌نت کر ام‌وی‌سی") ].

(** *** 3. Column standardization *)

Definition rename_label (col : pystr) : pystr :=
  if startswith col (u "Jobpost_") then skipn (List.length (u "Jobpost_")) col
  else if startswith col (u "Comany_") then replace col (u "Comany_") (u "Company_")
  else col.

Definition cols_to_drop : list pystr :=
  [ u "RowNumber"; u "ProvinceEn"; u "WorkTypeEn"; u "IndustryEn"; u "BenefitEn";
    u "CityEn"; u "CompanyOwnershipTypesEn"; u "SizeEn"; u "ActivityTypeEn";
    u "Company_ProvinceEn" ].

Definition rename_columns (df : DataFrame) : DataFrame :=
  {| nrows := nrows df;
     columns := map (fun c => (rename_label (fst c), snd c)) (columns df) |}.

Definition drop_columns (df : DataFrame) (cols : list pystr) : DataFrame :=
  {| nrows := nrows df;
     columns := filter (fun c => negb (existsb (str_eqb (fst c)) cols))
                       (columns df) |}.

Definition standardize_columns (df : DataFrame) : DataFrame :=
  let df := rename_columns df in
  let existing_cols_to_drop := filter (has_column df) cols_to_drop in
  drop_columns df existing_cols_to_drop.

(** The column reshaper renames every label and then drops the columns
    whose new label is in the fixed list. *)
Definition kept (c : pystr * list value) : bool :=
  negb (existsb (str_eqb (fst c)) cols_to_drop).

Definition renamed (c : pystr * list value) : pystr * list value :=
  (rename_label (fst c), snd c).

(** *** 4. Text cleaning *)

Definition columns_to_clean : list pystr :=
  [ u "MainJobCategory"; u "IndustryFa"; u "Company_IndustryFa"; u "RawTitle" ].

Definition separator : pystr := u " / ".
Definition canonical_separator : pystr := u "، ".

(** The separator pass followed by the dictionary pass, on one string. *)
Definition translate (s : pystr) : pystr :=
  fold_left (fun s entry => replace_ci s (fst entry) (snd entry))
            english_to_persian_map
            (replace s separator canonical_separator).

(** [Series.str.replace] with [regex=False]: an element that is not a
    string becomes NaN. With [case=False] the pattern is matched without
    regard to case ([replace_ci]). *)
Definition str_replace (f : pystr -> pystr) (series : list value) : list value :=
  map (fun v => match v with
                | VStr s => VStr (f s)
                | _ => VNum NaN
                end) series.

(** *** 5. Missing values *)

Definition categorical_fills : list (pystr * value) :=
  dict_of_items
    [ (u "ProvinceFa", VStr unspecified);
      (u "WorkTypeFa", VStr unspecified);
      (u "MainJobCategory", VStr unspecified);
      (u "RequiredExperienceYears", VNum (Fin 0)) ].

(** [df[col].fillna(fill_value, inplace=True)], the fill reaching the
    frame as it does without copy-on-write. *)
Definition fillna (fill_value : value) (series : list value) : list value :=
  map (fun v => if isna v then fill_value else v) series.

(** *** 6. Type conversion *)

Definition bool_cols : list pystr :=
  [ u "SalaryCanBeShown"; u "RequiredRelatedExperienceInThisIndustry";
    u "HasDisabilitySupport"; u "IsRemote"; u "IsInternship";
    u "PriorityWithLocalCandidate"; u "RequiredMilitaryServiceCard" ].

Definition numeric_cols : list pystr :=
  [ u "MinSalary"; u "MaxSalary"; u "RequiredMinAge"; u "RequiredMaxAge" ].

(** [bool(v)] on a cell: NaN is a non-zero float, a string is true unless
    empty. *)
Definition truthy (v : value) : bool :=
  match v with
  | VStr s => negb (str_eqb s [])
  | VBool b => b
  | VNum (Fin q) => negb (Qeq_bool q 0)
  | VNum _ => true
  end.

Definition astype_bool (series : list value) : list value :=
  map (fun v => VBool (truthy v)) series.

Definition is_bool (v : value) : bool :=
  match v with
  | VBool _ => true
  | _ => false
  end.

Section Conversions.

(** The number that [pd.to_numeric] reads from a string, if any, and the
    text that [str] gives for a finite number: both belong to the
    libraries. *)
Variable parse_number : pystr -> option pyfloat.
Variable repr_number : Q -> pystr.

(** [str(v)], which is what [astype(str)] stores: NaN becomes the text
    [nan]. *)
Definition str_of (v : value) : pystr :=
  match v with
  | VStr s => s
  | VBool b => if b then u "True" else u "False"
  | VNum NaN => u "nan"
  | VNum (Inf negative) => if negative then u "-inf" else u "inf"
  | VNum (Fin q) => repr_number q
  end.

Definition astype_str (series : list value) : list value :=
  map (fun v => VStr (str_of v)) series.

(** The three statements applied to a text column. *)
Definition clean_text (series : list value) : list value :=
  let series := astype_str series in
  let series :=
    str_replace (fun s => replace s separator canonical_separator) series in
  fold_left (fun series entry =>
               str_replace (fun s => replace_ci s (fst entry) (snd entry)) series)
            english_to_persian_map series.

(** [pd.to_numeric(series, errors='coerce')]: a series of booleans is
    numeric already; otherwise a string that does not read as a number
    becomes NaN and a boolean becomes 0 or 1. *)
Definition to_numeric_cell (v : value) : value :=
  match v with
  | VStr s =>
    match parse_number s with
    | Some x => VNum x
    | None => VNum NaN
    end
  | VBool b => VNum (Fin (if b then 1 else 0))
  | VNum x => VNum x
  end.

Definition to_numeric (series : list value) : list value :=
  if forallb is_bool series then series else map to_numeric_cell series.

(** The transformation between loading and saving. *)
Definition preprocess_frame (df : DataFrame) : DataFrame :=
  let df := standardize_columns df in
  let df := fold_left (update_column clean_text) columns_to_clean df in
  let df := fold_left (fun df fill =>
                         update_column (fillna (snd fill)) df (fst fill))
                      categorical_fills df in
  let df := fold_left (update_column astype_bool) bool_cols df in
  let df := fold_left (update_column to_numeric) numeric_cols df in
  df.

(** What the four loops of the pipeline do to the column labelled [l]. *)
Definition clean_column (l : pystr) (vs : list value) : list value :=
  on_label (fun col => col) (fun _ => to_numeric) numeric_cols l
    (on_label (fun col => col) (fun _ => astype_bool) bool_cols l
       (on_label fst (fun fill => fillna (snd fill)) categorical_fills l
          (on_label (fun col => col) (fun _ => clean_text)
                    columns_to_clean l vs))).

(** What [pd.read_csv] did. *)
Inductive loaded :=
| Loaded (df : DataFrame)
| FileNotFound
| LoadError.

(** [preprocess_job_data]: the frame handed to [to_csv], none when
    loading failed and the function returned early. *)
Definition preprocess_job_data (raw : loaded) : option DataFrame :=
  match raw with
  | Loaded df => Some (preprocess_frame df)
  | FileNotFound => None
  | LoadError => None
  end.

End Conversions.

(** A string is fully translated when the separator and every source
    phrase of the dictionary are absent from it, source phrases being
    looked for as the translator matches them. *)
Definition fully_translated (s : pystr) : bool :=
  negb (contains separator s)
  && forallb (fun entry => negb (contains_ci (fst entry) s)) english_to_persian_map.

(** Simple stand-ins for the two library functions, used in examples: a
    reader of plain decimal numerals and a printer of whole numbers. *)
Definition read_decimal (s : pystr) : option pyfloat :=
  match scan_number s with
  | Some (JInt z, used) =>
    if Nat.eqb used (List.length s) then Some (Fin (inject_Z z)) else None
  | Some (JFloat x, used) =>
    if Nat.eqb used (List.length s) then Some x else None
  | _ => None
  end.

Definition show_whole (q : Q) : pystr :=
  utf8_decode (NilZero.string_of_int (Z.to_int (Qnum q / Zpos (Qden q)))).

(** A raw table of two postings, with prefixed and misspelt labels, an
    unreadable salary, a numeric flag and a missing flag. *)
Definition demo_frame : DataFrame :=
  {| nrows := 2%nat;
     columns :=
       [ (u "RowNumber", [VNum (Fin 1); VNum (Fin 2)]);
         (u "Jobpost_MinSalary", [VStr (u "abc"); VStr (u "12000000")]);
         (u "Jobpost_IsRemote", [VNum (Fin 1); VNum NaN]);
         (u "Jobpost_RawTitle", [VStr (u "Senior IT Manager"); VStr (u "کارشناس فروش")]);
         (u "Comany_SizeFa", [VStr (u "زیر ۱۰ نفر"); VNum NaN]) ] |}.

(** A frame is well formed when every column has one cell per row and no
    two columns share a label: a column is addressed by its label. The raw
    tables considered are those that are well formed once their labels are
    renamed. *)
Definition well_formed (df : DataFrame) : Prop :=
  Forall (fun c => List.length (snd c) = nrows df) (columns df)
  /\ NoDup (labels df).

Fixpoint distinct (ls : list pystr) : bool :=
  match ls with
  | [] => true
  | l :: ls' => negb (existsb (str_eqb l) ls') && distinct ls'
  end.

Definition well_formed_b (df : DataFrame) : bool :=
  forallb (fun c => Nat.eqb (List.length (snd c)) (nrows df)) (columns df)
  && distinct (labels df).


End Pipeline.

(** ** Tables of the pipeline *)

Module PipelineTables.

Import Pipeline.

(** The labels that some stage of the pipeline names. *)
Definition named_labels : list pystr :=
  cols_to_drop ++ columns_to_clean ++ map fst categorical_fills
  ++ bool_cols ++ numeric_cols.

(** The columns that are filled, with their fill values, the text column
    [MainJobCategory] apart. *)
Definition filled_columns : list (pystr * value) :=
  [ (u "ProvinceFa", VStr unspecified);
    (u "WorkTypeFa", VStr unspecified);
    (u "RequiredExperienceYears", VNum (Fin 0)) ].

End PipelineTables.

(** ** Presentation helpers ([config.py]) *)

Module Config.

(** [str.maketrans('0123456789', '۰۱۲۳۴۵۶۷۸۹')] *)
Definition persian_map : list (codepoint * codepoint) :=
  combine (u "0123456789") (u "۰۱۲۳۴۵۶۷۸۹").

Fixpoint table_find (table : list (codepoint * codepoint)) (c : codepoint)
  : option codepoint :=
  match table with
  | [] => None
  | (k, v) :: rest => if N.eqb k c then Some v else table_find rest c
  end.

(** [s.translate(table)]: a character that the table has is replaced, any
    other is kept. *)
Definition str_translate (table : list (codepoint * codepoint)) (s : pystr)
  : pystr :=
  map (fun c => match table_find table c with
                | Some d => d
                | None => c
                end) s.

Section Numerals.

(** [str] of a finite number belongs to the interpreter. *)
Variable repr_number : Q -> pystr.

Definition to_persian_numerals (number_str : value) : pystr :=
  let number_str :=
    if negb (is_str number_str)
    then Pipeline.str_of repr_number number_str
    else match number_str with
         | VStr s => s
         | _ => []
         end in
  str_translate persian_map number_str.

End Numerals.

End Config.

(** ** The other list parsers *)

Module ListParsers.

Import Parsers.

(** [parse_academic_fields] and [parse_language_skills] are
    [parse_software_skills] with another attribute name: the list
    comprehension for the attribute [key]. *)
Fixpoint valid_attributes (key : pystr) (items : list json)
  : outcome (list pystr) :=
  match items with
  | [] => Ret []
  | item :: rest =>
    attribute <- py_get item key ;;
    keep <- (if truth attribute
             then attribute' <- py_get item key ;;
                  stripped <- py_strip attribute' ;;
                  Ret (negb (str_eqb stripped []))
             else Ret false) ;;
    if keep
    then attribute'' <- py_get_default item key ;;
         stripped <- py_strip attribute'' ;;
         more <- valid_attributes key rest ;;
         Ret (stripped :: more)
    else valid_attributes key rest
  end.

Definition parse_attribute_list (key : pystr) (text : value)
  : outcome (list pystr) :=
  if isna text || negb (is_str text) then Ret [] else
  match text with
  | VStr text =>
    returned_or []
      (try_except
         (data <- loads (replace text single_quote double_quote) ;;
          match data with
          | JArr data =>
            attributes <- valid_attributes key data ;;
            Ret (Some attributes)
          | _ => Ret None
          end)
         decode_errors
         (Ret (Some [])))
  | _ => Ret []
  end.

(** [visualize_academic_fields.py] *)
Definition parse_academic_fields (academic_json : value) : outcome (list pystr) :=
  parse_attribute_list (u "FieldType") academic_json.

(** [visualize_language_skills.py] *)
Definition parse_language_skills (skills_json : value) : outcome (list pystr) :=
  parse_attribute_list (u "Languages_TitleFa") skills_json.

(** An element on which the comprehension does not fail: a mapping whose
    attribute, if it has one, is a string or counts as false. *)
Definition attribute_of (key : pystr) (item : json) : option json :=
  match item with
  | JObj members => Some (match dict_find members key with
                          | Some v => v
                          | None => JNull
                          end)
  | _ => None
  end.

Definition well_typed (key : pystr) (item : json) : bool :=
  match attribute_of key item with
  | Some (JStr _) => true
  | Some v => negb (truth v)
  | None => false
  end.

(** The attribute of an element, stripped; empty when it is not a
    string. *)
Definition stripped_attribute (key : pystr) (item : json) : pystr :=
  match attribute_of key item with
  | Some (JStr s) => strip s
  | _ => []
  end.

Definition nonblank (t : pystr) : bool := negb (str_eqb t []).

(** What a list parser returns, in closed form: nothing for a cell that is
    no string, for text that does not decode and for a decoded value that
    is no list; for a list, the stripped attributes that are not blank, in
    the order of the list, unless some element is not well typed. *)
Definition list_outcome (key : pystr) (text : value) : outcome (list pystr) :=
  match text with
  | VStr text =>
    match loads (replace text single_quote double_quote) with
    | Ret (JArr items) =>
      if forallb (well_typed key) items
      then Ret (filter nonblank (map (stripped_attribute key) items))
      else Raise AttributeError
    | _ => Ret []
    end
  | _ => Ret []
  end.



End ListParsers.

(** ** Aggregations of the charts *)

Module Analyses.

Import Normalizers.

(** [Series.value_counts()]: the distinct values with the number of their
    occurrences. pandas lists them by falling count; they are listed here
    by first occurrence, the order being replaced by [reindex] in what
    follows. *)
Definition count_up (counts : list (pystr * nat)) (label : pystr)
  : list (pystr * nat) :=
  dict_set counts label
           (match dict_find counts label with
            | Some n => S n
            | None => 1%nat
            end).

Definition value_counts (series : list pystr) : list (pystr * nat) :=
  fold_left count_up series [].

(** [counts.reindex(order)]: the entries of [order], an absent one holding
    NaN; [dropna()] removes those. *)
Definition reindex (order : list pystr) (counts : list (pystr * nat))
  : list (pystr * option nat) :=
  map (fun label => (label, dict_find counts label)) order.

Fixpoint dropna (counts : list (pystr * option nat)) : list (pystr * nat) :=
  match counts with
  | [] => []
  | (label, Some n) :: rest => (label, n) :: dropna rest
  | (_, None) :: rest => dropna rest
  end.

(** The number of rows that hold a label, and the number of rows behind
    all the bars of a chart. *)
Definition occurrences (label : pystr) (series : list pystr) : nat :=
  List.length (filter (str_eqb label) series).

Definition total (counts : list (pystr * nat)) : nat :=
  list_sum (map snd counts).

(** The place of a label in an order; the length of the order for a label
    that it does not have. *)
Fixpoint position (order : list pystr) (label : pystr) : nat :=
  match order with
  | [] => 0%nat
  | l :: rest => if str_eqb l label then 0%nat else S (position rest label)
  end.

(** [x <= y] on floats: false when either is NaN. *)
Definition float_le (x y : pyfloat) : bool :=
  match x, y with
  | NaN, _ | _, NaN => false
  | Inf true, _ => true
  | _, Inf false => true
  | Inf false, _ => false
  | _, Inf true => false
  | Fin p, Fin q => Qle_bool p q
  end.

(** *** [visualize_work_experience] *)

Definition EXPERIENCE_OUTLIER_CAP : Q := 20.

Definition level_order : list pystr :=
  [ u "کارآموز / بدون سابقه";
    u "کم‌تجربه (۱ تا ۳ سال)";
    u "باتجربه (۳ تا ۷ سال)";
    u "ارشد (۷ تا ۱۰ سال)";
    u "بسیار باتجربه (بیش از ۱۰ سال)" ].

(** The numbers behind the bars, from the column of required years. *)
Definition experience_counts (years : list pyfloat) : list (pystr * nat) :=
  let df_filtered := filter (fun y => fle y EXPERIENCE_OUTLIER_CAP) years in
  let levels := map categorize_experience df_filtered in
  let exp_counts := value_counts levels in
  dropna (reindex level_order exp_counts).

(** *** [visualize_company_size_distribution] *)

Definition size_order : list pystr :=
  [ u "زیر ۱۰ نفر";
    u "۱۱ تا ۵۰ نفر";
    u "۵۱ تا ۲۰۰ نفر";
    u "۲۰۱ تا ۵۰۰ نفر";
    u "۵۰۱ تا ۱۰۰۰ نفر";
    u "بیش از ۱۰۰۰ نفر" ].

Definition company_size_counts (sizes : list value) : list (pystr * nat) :=
  let standardized := map standardize_company_size sizes in
  let df_filtered :=
    filter (fun size => negb (str_eqb size unspecified)) standardized in
  let size_counts := value_counts df_filtered in
  dropna (reindex size_order size_counts).

(** *** [visualize_salary_by_seniority] *)

Definition seniority_order : list pystr :=
  [ u "مقدماتی / کارآموز"; u "سطح میانی"; u "ارشد"; u "مدیر / سرپرست" ].

(** *** [standardize_it_role] ([visualize_it_role_salaries.py]) *)

Definition role_other : pystr := u "سایر".
Definition role_backend : pystr := u "توسعه دهنده بک-اند".
Definition role_frontend : pystr := u "توسعه دهنده فرانت-اند".
Definition role_fullstack : pystr := u "توسعه دهنده فول-استک".
Definition role_android : pystr := u "توسعه دهنده اندروید".
Definition role_ios : pystr := u "توسعه دهنده iOS".
Definition role_devops : pystr := u "مهندس DevOps".
Definition role_data : pystr := u "دانشمند / تحلیلگر داده".
Definition role_network : pystr := u "مهندس شبکه".

Section ItRole.

(** [str.lower], as for the seniority. *)
Variable lower : pystr -> pystr.

Definition standardize_it_role (title : value) : pystr :=
  match title with
  | VStr title =>
    let title := replace (replace (lower title) (u "-") (u " ")) (u "_") (u " ") in
    if any_keyword_in [u "back end"; u "backend"; u "بک اند"] title
    then role_backend
    else if any_keyword_in [u "front end"; u "frontend"; u "فرانت اند"] title
    then role_frontend
    else if any_keyword_in [u "full stack"; u "fullstack"; u "فول استک"] title
    then role_fullstack
    else if any_keyword_in [u "android"; u "اندروید"] title
    then role_android
    else if any_keyword_in [u "ios"] title
    then role_ios
    else if any_keyword_in [u "devops"; u " دواپس"] title
    then role_devops
    else if any_keyword_in [u "data scientist"; u "دانشمند داده"; u "تحلیلگر داده"] title
    then role_data
    else if any_keyword_in [u "network"; u "شبکه"] title
    then role_network
    else role_other
  | _ => role_other
  end.

End ItRole.

Definition remove_spaces (s : pystr) : pystr :=
  filter (fun c => negb (N.eqb 32 c)) s.

(** Hyphen and underscore read as a space. *)
Definition separator_to_space (c : codepoint) : codepoint :=
  if (N.eqb c 45 || N.eqb c 95)%bool then 32%N else c.

End Analyses.

(** * Properties *)

(** ** Strings *)

Module PyStrFacts.

Lemma str_eqb_eq (a b : pystr) : str_eqb a b = true <-> a = b.
Proof.
  revert b. induction a as [|x a IH]; intros [|y b]; simpl; split;
    try congruence; try reflexivity.
  - intros H. apply andb_prop in H. destruct H as [Hx Hab].
    apply N.eqb_eq in Hx. apply IH in Hab. congruence.
  - intros H. injection H as -> ->. rewrite N.eqb_refl. simpl.
    apply IH. reflexivity.
Qed.

Lemma str_eqb_refl (a : pystr) : str_eqb a a = true.
Proof. apply str_eqb_eq. reflexivity. Qed.

Lemma str_eqb_sym (a b : pystr) : str_eqb a b = str_eqb b a.
Proof.
  destruct (str_eqb a b) eqn:E1, (str_eqb b a) eqn:E2; try reflexivity.
  - apply str_eqb_eq in E1. subst. rewrite str_eqb_refl in E2. discriminate.
  - apply str_eqb_eq in E2. subst. rewrite str_eqb_refl in E1. discriminate.
Qed.

Section MatchingFacts.

Variable eqc : codepoint -> codepoint -> bool.

(** Replacing a pattern that does not occur changes nothing. *)
Lemma replace_by_absent (old new s : pystr) :
  contains_by eqc old s = false -> replace_by eqc old new s = s.
Proof.
  unfold replace_by. induction s as [|c s IH]; simpl.
  - destruct old; simpl; [discriminate | reflexivity].
  - intros H. apply orb_false_elim in H. destruct H as [Hhead Htail].
    rewrite Hhead. f_equal. apply IH. exact Htail.
Qed.

(** A pattern found at some position is found after any prefix. *)
Lemma contains_by_app (p pre s : pystr) :
  contains_by eqc p s = true -> contains_by eqc p (pre ++ s) = true.
Proof.
  intros H. induction pre as [|c pre IH]; simpl.
  - exact H.
  - simpl in IH. rewrite IH. apply orb_true_r.
Qed.

Lemma contains_by_split (p s : pystr) :
  contains_by eqc p s = true ->
  exists pre post, s = pre ++ post /\ starts_with_by eqc p post = true.
Proof.
  induction s as [|c s IH]; simpl; intros H.
  - exists [], []. rewrite orb_false_r in H. split; [reflexivity | exact H].
  - apply orb_prop in H. destruct H as [H | H].
    + exists [], (c :: s). split; [reflexivity | exact H].
    + destruct (IH H) as (pre & post & -> & Hp).
      exists (c :: pre), post. split; [reflexivity | exact Hp].
Qed.

Lemma starts_with_contains (p s : pystr) :
  starts_with_by eqc p s = true -> contains_by eqc p s = true.
Proof.
  intros H. destruct s; simpl in *; rewrite H; reflexivity.
Qed.

End MatchingFacts.

(** ASCII lower-casing keeps every occurrence of a pattern that it leaves
    unchanged. *)
Lemma ascii_lower_starts_with (p s : pystr) :
  ascii_lower p = p ->
  starts_with_by N.eqb p s = true ->
  starts_with_by N.eqb p (ascii_lower s) = true.
Proof.
  revert s. induction p as [|a p IH]; intros s Hp H; [reflexivity|].
  destruct s as [|c s]; [discriminate|].
  simpl in *. injection Hp as Ha Hp.
  apply andb_prop in H. destruct H as [Hac Hrest].
  apply N.eqb_eq in Hac. subst c. rewrite Ha, N.eqb_refl. simpl.
  apply IH; assumption.
Qed.

Lemma ascii_lower_contains (p s : pystr) :
  ascii_lower p = p ->
  contains p s = true -> contains p (ascii_lower s) = true.
Proof.
  unfold contains. intros Hp H.
  destruct (contains_by_split _ _ _ H) as (pre & post & -> & Hpost).
  unfold ascii_lower. rewrite map_app.
  apply contains_by_app, starts_with_contains.
  apply ascii_lower_starts_with; assumption.
Qed.

End PyStrFacts.

Import PyStrFacts.

(** ** Categorical normalizers *)

Module NormalizerFacts.

Import Normalizers.

Lemma Qle_bool_trans (q a b : Q) :
  Qle_bool a b = true -> Qle_bool q a = true -> Qle_bool q b = true.
Proof.
  rewrite !Qle_bool_iff. intros Hab Hqa. eapply Qle_trans; eassumption.
Qed.

(** C4. [categorize_experience] buckets the years into five contiguous and
    disjoint ranges: at 0, 1, 1.5, 10 and 10.1 it gives the first, first,
    second, fourth and fifth band; a missing input gives "unspecified";
    the five labels are distinct and every number lies in exactly one of
    the ranges x <= 1, 1 < x <= 3, 3 < x <= 7, 7 < x <= 10, 10 < x, whose
    label is the one returned. *)
Theorem categorize_experience_bands :
  map categorize_experience [Fin 0; Fin 1; Fin 1.5; Fin 10; Fin 10.1]
  = [band_intern; band_intern; band_junior; band_senior; band_expert]
  /\ categorize_experience NaN = unspecified
  /\ NoDup (unspecified :: map band_label experience_bands)
  /\ forall q : Q,
       map band_label (filter (in_band q) experience_bands)
       = [categorize_experience (Fin q)].
Proof.
  split; [vm_compute; reflexivity|].
  split; [vm_compute; reflexivity|].
  split.
  { repeat (constructor;
            [simpl; intros H;
             repeat (destruct H as [H | H];
                     [apply str_eqb_eq in H; vm_compute in H; discriminate|]);
             exact H|]).
    constructor. }
  intros q.
  unfold categorize_experience, experience_bands, in_band, fle, flt_lit, isna.
  cbn [filter map band_lo band_hi band_label andb negb].
  destruct (Qle_bool q 1) eqn:E1.
  - pose proof (Qle_bool_trans q 1 3 eq_refl E1) as E3.
    pose proof (Qle_bool_trans q 3 7 eq_refl E3) as E7.
    pose proof (Qle_bool_trans q 7 10 eq_refl E7) as E10.
    rewrite E3, E7, E10. reflexivity.
  - destruct (Qle_bool q 3) eqn:E3.
    + pose proof (Qle_bool_trans q 3 7 eq_refl E3) as E7.
      pose proof (Qle_bool_trans q 7 10 eq_refl E7) as E10.
      rewrite E7, E10. reflexivity.
    + destruct (Qle_bool q 7) eqn:E7.
      * rewrite (Qle_bool_trans q 7 10 eq_refl E7). reflexivity.
      * destruct (Qle_bool q 10) eqn:E10; reflexivity.
Qed.

(** The float written [10.1] is the binary fraction nearest to it, which
    is above 10 as well. *)
Example categorize_experience_float_10_1 :
  categorize_experience (Fin (5685794529555251 # 562949953421312)) = band_expert.
Proof. vm_compute. reflexivity. Qed.



(** With the ASCII case table, a keyword that occurs in the title as it is
    written still occurs after lower-casing: a title that contains a
    manager keyword gets the manager label whatever else it contains. *)
Lemma manager_keyword_in_raw_title (title manager_keyword : pystr) :
  In manager_keyword manager_keywords ->
  contains manager_keyword title = true ->
  categorize_seniority ascii_lower (VStr title) = label_manager.
Proof.
  intros Hmk Hin. unfold categorize_seniority. cbv zeta.
  assert (H : any_keyword_in manager_keywords (ascii_lower title) = true).
  { unfold any_keyword_in. apply existsb_exists. exists manager_keyword.
    split; [assumption|]. apply ascii_lower_contains; [|assumption].
    simpl in Hmk.
    repeat (destruct Hmk as [<- | Hmk]; [vm_compute; reflexivity|]).
    contradiction. }
  rewrite H. reflexivity.
Qed.

Example senior_alone :
  categorize_seniority ascii_lower (VStr (u "Senior Backend Developer"))
  = label_senior.
Proof. vm_compute. reflexivity. Qed.

Example no_keyword_is_mid_level :
  categorize_seniority ascii_lower (VStr (u "Backend Developer")) = label_mid.
Proof. vm_compute. reflexivity. Qed.

(** C6. The label that the code itself returns for the 51-200 tier,
    written with Persian digits, is not recognized: the pattern tested for
    that tier spells "200" with the Bengali digits U+09E8 U+09E6 U+09E6. *)
Theorem company_size_51_200_persian_digits_unrecognized :
  standardize_company_size (VStr (u "۵۱ تا ۲۰۰ نفر")) = unspecified
  /\ standardize_company_size (VStr (u "51 تا 200 نفر")) = tier_51_200.
Proof. split; vm_compute; reflexivity. Qed.

(** The other five tiers are recognized in both numeral scripts, and with
    or without the spaces and connector words. *)
Lemma company_size_other_tiers :
  map (fun s => standardize_company_size (VStr s))
      [ u "زیر ۱۰ نفر"; u "زیر10نفر"; u "زیر 10 نفر";
        u "۱۱ تا ۵۰ نفر"; u "11 تا 50 نفر"; u "۱۱۵۰";
        u "۲۰۱ تا ۵۰۰ نفر"; u "201 تا 500 نفر";
        u "۵۰۱ تا ۱۰۰۰ نفر"; u "501 تا 1000 نفر";
        u "بیش از ۱۰۰۰ نفر"; u "بیش از 1000 نفر" ]
  = [ tier_under_10; tier_under_10; tier_under_10;
      tier_11_50; tier_11_50; tier_11_50;
      tier_201_500; tier_201_500;
      tier_501_1000; tier_501_1000;
      tier_over_1000; tier_over_1000 ].
Proof. vm_compute. reflexivity. Qed.

(** A value that is not a string, and a string that matches no tier, map
    to "unspecified". *)
Lemma company_size_unrecognized :
  standardize_company_size (VNum NaN) = unspecified
  /\ standardize_company_size (VStr (u "Under 10")) = unspecified
  /\ standardize_company_size (VStr []) = unspecified.
Proof. repeat split; vm_compute; reflexivity. Qed.

End NormalizerFacts.

(** ** Embedded-list parsers *)

Module ParserFacts.

Import Parsers.

(** [json.loads] raises nothing but [JSONDecodeError]. *)
Lemma loads_raises_decode_error (s : pystr) (e : exn) :
  loads s = Raise e -> e = JSONDecodeError.
Proof.
  unfold loads. destruct (lex 0 s) as [tokens|]; [|congruence].
  destruct (parse tokens); congruence.
Qed.

(** C7. [parse_software_skills] lets an exception reach its caller: on a
    list whose element is not a mapping, and on a mapping whose title is
    not a string, the list comprehension raises [AttributeError], which
    the handler for [JSONDecodeError] and [TypeError] does not catch. *)
Theorem parse_software_skills_raises :
  parse_software_skills (VStr (u "[1]")) = Raise AttributeError
  /\ parse_software_skills (VStr (u "['Python']")) = Raise AttributeError
  /\ parse_software_skills (VStr (u "[{'TitleFa': 5}]")) = Raise AttributeError.
Proof. repeat split; vm_compute; reflexivity. Qed.

(** On the same inputs [parse_degree_level] answers "unspecified". *)
Lemma parse_degree_level_same_inputs :
  map (fun s => parse_degree_level (VStr s))
      [ u "[1]"; u "['Python']"; u "[{'TitleFa': 5}]" ]
  = [ Ret (JStr unspecified); Ret (JStr unspecified); Ret (JStr unspecified) ].
Proof. vm_compute. reflexivity. Qed.

(** The failures that the parsers do absorb: a value that is missing or
    not a string, text that is not JSON, and JSON that is not a list. *)
Lemma parse_software_skills_absorbed (v : value) :
  is_str v = false -> parse_software_skills v = Ret [].
Proof.
  unfold parse_software_skills. intros H. rewrite H, orb_true_r. reflexivity.
Qed.

Lemma parse_software_skills_malformed (s : pystr) (e : exn) :
  loads (replace s single_quote double_quote) = Raise e ->
  parse_software_skills (VStr s) = Ret [].
Proof.
  intros H. pose proof (loads_raises_decode_error _ _ H) as ->.
  unfold parse_software_skills. simpl. rewrite H. reflexivity.
Qed.

Lemma parse_software_skills_not_a_list (s : pystr) (data : json) :
  loads (replace s single_quote double_quote) = Ret data ->
  (forall items, data <> JArr items) ->
  parse_software_skills (VStr s) = Ret [].
Proof.
  intros H Hdata. unfold parse_software_skills. simpl. rewrite H. simpl.
  destruct data; try reflexivity. exfalso. eapply Hdata. reflexivity.
Qed.

(** [parse_degree_level] returns for every cell: no exception reaches the
    caller, whatever the text decodes to. *)
Lemma parse_degree_level_total (v : value) :
  exists level, parse_degree_level v = Ret level.
Proof.
  unfold parse_degree_level.
  destruct (isna v || negb (is_str v)); [eauto|].
  destruct v as [s| |]; [|eauto|eauto].
  destruct (loads (replace s single_quote double_quote)) as [data|e] eqn:E.
  - simpl. destruct data as [| | | | |items|]; simpl; eauto.
    destruct items as [|first rest]; simpl; [eauto|].
    destruct first as [| | | |t|items'|members]; simpl; eauto.
    + destruct (contains _ t); simpl; eauto.
    + destruct (existsb _ items'); simpl; eauto.
    + destruct (dict_find members _); simpl; eauto.
  - apply loads_raises_decode_error in E. subst e. simpl. eauto.
Qed.

(** What it returns is the attribute as decoded, which need not be a
    label. *)
Example parse_degree_level_null_attribute :
  parse_degree_level (VStr (u "[{'DegreeLevel': null}]")) = Ret JNull.
Proof. vm_compute. reflexivity. Qed.

Example parse_software_skills_titles :
  parse_software_skills
    (VStr (u "[{'TitleFa': ' پایتون '}, {'TitleFa': '  '}, {'Other': 1}]"))
  = Ret [u "پایتون"].
Proof. vm_compute. reflexivity. Qed.

Example parse_malformed_text :
  parse_software_skills (VStr (u "[{'TitleFa': 'Pyth")) = Ret []
  /\ parse_software_skills (VStr (u "{'TitleFa': 'Python'}")) = Ret []
  /\ parse_degree_level (VStr (u "[{'DegreeLevel': 'BS'")) = Ret (JStr unspecified)
  /\ parse_degree_level (VStr (u "{'DegreeLevel': 'BS'}")) = Ret (JStr unspecified)
  /\ parse_degree_level (VNum NaN) = Ret (JStr unspecified).
Proof. repeat split; vm_compute; reflexivity. Qed.

End ParserFacts.

(** ** The cleaning pipeline *)

Module PipelineFacts.

Import Pipeline.

Lemma frame_ext (a b : DataFrame) :
  nrows a = nrows b -> columns a = columns b -> a = b.
Proof. destruct a, b. simpl. intros -> ->. reflexivity. Qed.

Lemma existsb_filter {A : Type} (p q : A -> bool) (l : list A) :
  existsb p (filter q l) = existsb (fun x => p x && q x) l.
Proof.
  induction l as [|x l IH]; simpl; [reflexivity|].
  destruct (q x); simpl; rewrite IH, ?andb_true_r, ?andb_false_r; reflexivity.
Qed.

Lemma has_column_of_member (df : DataFrame) (c : pystr * list value) :
  In c (columns df) -> has_column df (fst c) = true.
Proof.
  intros H. unfold has_column, labels. apply existsb_exists.
  exists (fst c). split; [apply in_map; exact H | apply str_eqb_refl].
Qed.

(** Updating a column that is absent leaves the frame as it is: the guard
    [if col in df.columns] skips it. *)
Lemma update_column_absent (f : list value -> list value) (df : DataFrame)
  (col : pystr) :
  has_column df col = false -> update_column f df col = df.
Proof. unfold update_column. intros ->. reflexivity. Qed.

Lemma update_column_assign (f : list value -> list value) (df : DataFrame)
  (col : pystr) :
  update_column f df col = assign_column df col f.
Proof.
  unfold update_column. destruct (has_column df col) eqn:E; [reflexivity|].
  apply frame_ext; [reflexivity|]. simpl.
  rewrite <- (map_id (columns df)) at 1. apply map_ext_in.
  intros c Hc. destruct (str_eqb (fst c) col) eqn:Ec; [|reflexivity].
  apply str_eqb_eq in Ec. subst col.
  rewrite (has_column_of_member _ _ Hc) in E. discriminate.
Qed.

Lemma fold_update_columns {A : Type} (key : A -> pystr)
  (F : A -> list value -> list value) (items : list A) (df : DataFrame) :
  fold_left (fun df it => update_column (F it) df (key it)) items df
  = {| nrows := nrows df;
       columns := map (fun c => (fst c, on_label key F items (fst c) (snd c)))
                      (columns df) |}.
Proof.
  revert df. induction items as [|it items IH]; intros df; simpl.
  - apply frame_ext; [reflexivity|]. simpl.
    rewrite <- (map_id (columns df)) at 1. apply map_ext.
    intros [l vs]. reflexivity.
  - rewrite IH, update_column_assign. simpl. f_equal.
    rewrite map_map. apply map_ext. intros [l vs]. simpl.
    unfold on_label. simpl. destruct (str_eqb l (key it)); reflexivity.
Qed.

Lemma fold_update_same (f : list value -> list value) (cols : list pystr)
  (df : DataFrame) :
  fold_left (update_column f) cols df
  = {| nrows := nrows df;
       columns := map (fun c => (fst c, on_label (fun col => col) (fun _ => f)
                                                 cols (fst c) (snd c)))
                      (columns df) |}.
Proof. exact (fold_update_columns (fun col => col) (fun _ => f) cols df). Qed.


Lemma existing_cols_to_drop_enough (df : DataFrame) (cols : list pystr)
  (c : pystr * list value) :
  In c (columns df) ->
  existsb (str_eqb (fst c)) (filter (has_column df) cols)
  = existsb (str_eqb (fst c)) cols.
Proof.
  intros Hc. rewrite existsb_filter.
  induction cols as [|d ds IH]; [reflexivity|].
  cbn [existsb]. rewrite IH. f_equal.
  destruct (str_eqb (fst c) d) eqn:E; [|reflexivity].
  apply str_eqb_eq in E. subst d.
  rewrite (has_column_of_member df c Hc). reflexivity.
Qed.

Lemma standardize_columns_eq (df : DataFrame) :
  standardize_columns df
  = {| nrows := nrows df; columns := filter kept (map renamed (columns df)) |}.
Proof.
  unfold standardize_columns, drop_columns. cbv zeta.
  apply frame_ext; [reflexivity|].
  cbn [columns nrows].
  change (columns (rename_columns df)) with (map renamed (columns df)).
  apply filter_ext_in. intros c Hc. unfold kept. f_equal.
  apply (existing_cols_to_drop_enough (rename_columns df)). exact Hc.
Qed.

Section ConversionFacts.

Variable parse_number : pystr -> option pyfloat.
Variable repr_number : Q -> pystr.

Lemma fold_str_replace (entries : list (pystr * pystr))
  (h : value -> pystr) (series : list value) :
  fold_left (fun series entry =>
               str_replace (fun s => replace_ci s (fst entry) (snd entry)) series)
            entries (map (fun v => VStr (h v)) series)
  = map (fun v => VStr (fold_left (fun s entry =>
                                     replace_ci s (fst entry) (snd entry))
                                  entries (h v))) series.
Proof.
  revert h. induction entries as [|entry entries IH]; intros h.
  - reflexivity.
  - cbn [fold_left]. unfold str_replace at 2. rewrite map_map.
    apply (IH (fun v => replace_ci (h v) (fst entry) (snd entry))).
Qed.

(** The text cleaning of a column gives, for every cell, the translation
    of the text of the cell. *)
Lemma clean_text_cells (series : list value) :
  clean_text repr_number series
  = map (fun v => VStr (translate (str_of repr_number v))) series.
Proof.
  unfold clean_text, translate, astype_str. cbv zeta.
  unfold str_replace at 2. rewrite map_map.
  apply (fold_str_replace english_to_persian_map
           (fun v => replace (str_of repr_number v) separator canonical_separator)).
Qed.




(** The whole transformation, column by column. *)
Lemma preprocess_frame_eq (df : DataFrame) :
  preprocess_frame parse_number repr_number df
  = {| nrows := nrows df;
       columns :=
         map (fun c => (fst c, clean_column parse_number repr_number
                                            (fst c) (snd c)))
             (filter kept (map renamed (columns df))) |}.
Proof.
  unfold preprocess_frame. cbv zeta.
  rewrite (fold_update_same (to_numeric parse_number) numeric_cols).
  rewrite (fold_update_same astype_bool bool_cols).
  rewrite (fold_update_columns fst (fun fill => fillna (snd fill))
             categorical_fills).
  rewrite (fold_update_same (clean_text repr_number) columns_to_clean).
  rewrite standardize_columns_eq.
  cbn [nrows columns]. f_equal.
  rewrite !map_map. apply map_ext. intros c. reflexivity.
Qed.

Lemma clean_column_bool (l : pystr) (vs : list value) :
  In l bool_cols ->
  clean_column parse_number repr_number l vs = astype_bool vs
  /\ kept (l, vs) = true.
Proof.
  intros H. simpl in H.
  repeat (destruct H as [<- | H]; [split; reflexivity|]).
  contradiction.
Qed.


(** A raw column whose new label is kept appears in the cleaned frame,
    cleaned. *)
Lemma cleaned_column_of_raw (df : DataFrame) (l : pystr) (vs : list value) :
  In (l, vs) (columns df) ->
  kept (rename_label l, vs) = true ->
  In (rename_label l, clean_column parse_number repr_number (rename_label l) vs)
     (columns (preprocess_frame parse_number repr_number df)).
Proof.
  intros Hin Hkept. rewrite preprocess_frame_eq. simpl.
  apply (in_map (fun c => (fst c, clean_column parse_number repr_number
                                                 (fst c) (snd c)))
                _ (rename_label l, vs)).
  apply filter_In. split; [|exact Hkept].
  apply (in_map renamed _ (l, vs)). exact Hin.
Qed.

(** Every column of the cleaned frame is a raw column, cleaned. *)
Lemma raw_column_of_cleaned (df : DataFrame) (l : pystr) (vs : list value) :
  In (l, vs) (columns (preprocess_frame parse_number repr_number df)) ->
  exists l0 vs0,
    In (l0, vs0) (columns df) /\ l = rename_label l0
    /\ vs = clean_column parse_number repr_number l vs0.
Proof.
  rewrite preprocess_frame_eq. simpl. intros H.
  apply in_map_iff in H. destruct H as ([l1 vs1] & Heq & H).
  apply filter_In in H. destruct H as [H _].
  apply in_map_iff in H. destruct H as ([l0 vs0] & Hr & H).
  unfold renamed in Hr. simpl in *.
  injection Hr as <- <-. injection Heq as <- <-.
  exists l0, vs0. auto.
Qed.

End ConversionFacts.

Lemma map_filter_comm {A B : Type} (f : A -> B) (p : B -> bool) (l : list A) :
  map f (filter (fun x => p (f x)) l) = filter p (map f l).
Proof.
  induction l as [|x l IH]; simpl; [reflexivity|].
  destruct (p (f x)); simpl; rewrite IH; reflexivity.
Qed.

Lemma distinct_NoDup (ls : list pystr) : distinct ls = true -> NoDup ls.
Proof.
  induction ls as [|l ls IH]; intros H; [constructor|].
  cbn [distinct] in H. apply andb_prop in H. destruct H as [Hl Hls].
  constructor; [|apply IH; exact Hls].
  intros Hin. apply negb_true_iff in Hl.
  assert (Hex : existsb (str_eqb l) ls = true).
  { apply existsb_exists. exists l. split; [exact Hin | apply str_eqb_refl]. }
  congruence.
Qed.

Lemma well_formed_b_sound (df : DataFrame) :
  well_formed_b df = true -> well_formed df.
Proof.
  unfold well_formed_b, well_formed. intros H.
  apply andb_prop in H. destruct H as [Hlen Hdis].
  split; [|apply distinct_NoDup; exact Hdis].
  apply Forall_forall. intros c Hc.
  rewrite forallb_forall in Hlen. apply Nat.eqb_eq. apply (Hlen c Hc).
Qed.


(** The labels that come out of the pipeline: those of the raw table,
    renamed, less the dropped ones. *)
Lemma labels_preprocess_frame (parse_number : pystr -> option pyfloat)
  (repr_number : Q -> pystr) (df : DataFrame) :
  labels (preprocess_frame parse_number repr_number df)
  = filter (fun l => negb (existsb (str_eqb l) cols_to_drop))
           (map rename_label (labels df)).
Proof.
  rewrite preprocess_frame_eq. unfold labels. cbn [columns].
  transitivity (map fst (filter kept (map renamed (columns df)))).
  { rewrite map_map. apply map_ext. intros c. reflexivity. }
  transitivity (filter (fun l => negb (existsb (str_eqb l) cols_to_drop))
                       (map fst (map renamed (columns df)))).
  { apply (map_filter_comm fst
             (fun l => negb (existsb (str_eqb l) cols_to_drop))). }
  f_equal. rewrite !map_map. apply map_ext. intros c. reflexivity.
Qed.




Lemma demo_frame_well_formed : well_formed (rename_columns demo_frame).
Proof. apply well_formed_b_sound. vm_compute. reflexivity. Qed.


(** C2. For every well-formed raw table, after the type coercer every
    designated boolean column holds booleans only: the cleaned column is
    the raw column with each cell replaced by its truth value. The truth value is that of the value
    itself, not of what a string spells: any non-empty string is true, a
    numeric flag is true unless zero, a boolean is kept. A designated
    column that is absent is skipped, the frame being left as it is. *)
Theorem boolean_columns_coerced (parse_number : pystr -> option pyfloat)
  (repr_number : Q -> pystr) (df : DataFrame) (l : pystr) (vs : list value) :
  well_formed (rename_columns df) ->
  In (l, vs) (columns df) ->
  In (rename_label l) bool_cols ->
  In (rename_label l, map (fun v => VBool (truthy v)) vs)
     (columns (preprocess_frame parse_number repr_number df))
  /\ (forall l' vs',
        In (l', vs') (columns (preprocess_frame parse_number repr_number df)) ->
        In l' bool_cols ->
        Forall (fun v => v = VBool true \/ v = VBool false) vs')
  /\ (truthy (VStr (u "False")) = true
      /\ truthy (VStr (u "0")) = true
      /\ truthy (VStr []) = false
      /\ truthy (VNum (Fin 1)) = true
      /\ truthy (VNum (Fin 0)) = false
      /\ forall b, truthy (VBool b) = b)
  /\ (forall col f df', has_column df' col = false ->
        update_column f df' col = df').
Proof.
  intros _ Hin Hbool.
  destruct (clean_column_bool parse_number repr_number (rename_label l) vs Hbool)
    as [Hclean Hkept].
  split.
  { pose proof (cleaned_column_of_raw parse_number repr_number df l vs Hin Hkept)
      as H.
    rewrite Hclean in H. exact H. }
  split.
  { intros l' vs' Hin' Hbool'.
    destruct (raw_column_of_cleaned parse_number repr_number df l' vs' Hin')
      as (l0 & vs0 & _ & _ & ->).
    destruct (clean_column_bool parse_number repr_number l' vs0 Hbool')
      as [-> _].
    unfold astype_bool. apply Forall_forall. intros v Hv.
    apply in_map_iff in Hv. destruct Hv as (v0 & <- & _).
    destruct (truthy v0); [left | right]; reflexivity. }
  split.
  { repeat split. }
  intros col f df'. apply update_column_absent.
Qed.

Lemma boolean_columns_coerced_witness :
  well_formed (rename_columns demo_frame)
  /\ In (u "Jobpost_IsRemote", [VNum (Fin 1); VNum NaN]) (columns demo_frame)
  /\ In (rename_label (u "Jobpost_IsRemote")) bool_cols
  /\ In (u "IsRemote", [VBool true; VBool true])
        (columns (preprocess_frame read_decimal show_whole demo_frame)).
Proof.
  assert (H1 : In (u "Jobpost_IsRemote", [VNum (Fin 1); VNum NaN])
                  (columns demo_frame)) by (simpl; auto).
  assert (H2 : In (rename_label (u "Jobpost_IsRemote")) bool_cols)
    by (vm_compute; auto 10).
  split; [exact demo_frame_well_formed|]. split; [exact H1|]. split; [exact H2|].
  exact (proj1 (boolean_columns_coerced read_decimal show_whole demo_frame
                  (u "Jobpost_IsRemote") [VNum (Fin 1); VNum NaN]
                  demo_frame_well_formed H1 H2)).
Defined.




(** A dictionary pass over a string in which no source phrase occurs
    changes nothing. *)
Lemma dictionary_pass_absent (entries : list (pystr * pystr)) (s : pystr) :
  forallb (fun entry => negb (contains_ci (fst entry) s)) entries = true ->
  fold_left (fun s entry => replace_ci s (fst entry) (snd entry)) entries s = s.
Proof.
  induction entries as [|entry entries IH]; intros H; [reflexivity|].
  cbn [forallb] in H. apply andb_prop in H. destruct H as [Hentry Hrest].
  cbn [fold_left]. unfold replace_ci at 2.
  rewrite (replace_by_absent ci_eq (fst entry) (snd entry) s).
  - apply IH. exact Hrest.
  - apply negb_true_iff. exact Hentry.
Qed.

Lemma fully_translated_spec (s : pystr) :
  fully_translated s = true
  <-> contains separator s = false
      /\ forall source target, In (source, target) english_to_persian_map ->
           contains_ci source s = false.
Proof.
  unfold fully_translated. rewrite andb_true_iff, negb_true_iff, forallb_forall.
  split; intros [Hsep Hall]; (split; [exact Hsep|]).
  - intros source target Hin. apply negb_true_iff. apply (Hall _ Hin).
  - intros [source target] Hin. apply negb_true_iff. apply (Hall _ _ Hin).
Qed.

(** C8. On clean input the field translator is the identity: if neither
    the space-surrounded slash nor any source phrase of the dictionary
    occurs in a string (source phrases being matched without regard to
    case, as the translator matches them), then the separator pass followed
    by the dictionary pass returns the string as it was, and so does the
    cleaning of a text column at that cell. *)
Theorem translate_clean_string_unchanged (repr_number : Q -> pystr) (s : pystr) :
  fully_translated s = true ->
  translate s = s
  /\ translate (translate s) = translate s
  /\ clean_text repr_number [VStr s] = [VStr s].
Proof.
  intros H.
  assert (Ht : translate s = s).
  { unfold fully_translated in H. apply andb_prop in H. destruct H as [Hsep Hall].
    unfold translate.
    replace (replace s separator canonical_separator) with s.
    - apply dictionary_pass_absent. exact Hall.
    - symmetry. apply replace_by_absent. apply negb_true_iff. exact Hsep. }
  split; [exact Ht|]. split; [rewrite Ht; exact Ht|].
  rewrite clean_text_cells. cbn [map str_of]. rewrite Ht. reflexivity.
Qed.

Lemma translate_clean_string_unchanged_witness :
  fully_translated (u "کارشناس فروش، بک-اند") = true
  /\ translate (u "کارشناس فروش، بک-اند") = u "کارشناس فروش، بک-اند".
Proof.
  assert (H : fully_translated (u "کارشناس فروش، بک-اند") = true)
    by (vm_compute; reflexivity).
  split; [exact H|].
  exact (proj1 (translate_clean_string_unchanged show_whole _ H)).
Defined.

(** Text that is not clean is rewritten, whatever its case. *)
Example translate_rewrites :
  translate (u "Senior it / devops Engineer")
  = u "Senior فناوری اطلاعات، دواپس Engineer".
Proof. vm_compute. reflexivity. Qed.

(** The second entry for the slash overwrites the first: a slash becomes
    a hyphen. *)
Example translate_slash :
  dict_find english_to_persian_map (u "/") = Some (u "-")
  /\ List.length english_to_persian_map = 17%nat
  /\ translate (u "a/b") = u "a-b".
Proof. repeat split; vm_compute; reflexivity. Qed.

(** Nothing is left for the fill to do in a text column once it is
    cleaned: all its cells are strings. *)
Lemma fillna_after_clean_text (repr_number : Q -> pystr) (fill_value : value)
  (vs : list value) :
  fillna fill_value (clean_text repr_number vs) = clean_text repr_number vs.
Proof.
  rewrite clean_text_cells. unfold fillna. rewrite map_map.
  apply map_ext. intros v. reflexivity.
Qed.

Lemma clean_column_text (parse_number : pystr -> option pyfloat)
  (repr_number : Q -> pystr) (l : pystr) (vs : list value) :
  In l columns_to_clean ->
  clean_column parse_number repr_number l vs = clean_text repr_number vs
  /\ kept (l, vs) = true.
Proof.
  intros H. cbn [columns_to_clean In] in H.
  destruct H as [<- | H].
  { split; [|reflexivity].
    exact (fillna_after_clean_text repr_number (VStr unspecified) vs). }
  repeat (destruct H as [<- | H]; [split; reflexivity|]).
  contradiction.
Qed.




(** The same conversion reaches the missing cells of a text column: NaN
    becomes the text [nan], so that the fill of [MainJobCategory], which
    comes after the translation, finds nothing to fill. *)
Example missing_text_cell :
  clean_text show_whole [VNum NaN] = [VStr (u "nan")]
  /\ columns (preprocess_frame read_decimal show_whole
               {| nrows := 1%nat;
                  columns := [ (u "MainJobCategory", [VNum NaN]);
                               (u "ProvinceFa", [VNum NaN]) ] |})
     = [ (u "MainJobCategory", [VStr (u "nan")]);
         (u "ProvinceFa", [VStr unspecified]) ].
Proof. split; vm_compute; reflexivity. Qed.

(** C10. The type coercer reads a missing boolean as true: in a designated
    boolean column of a well-formed raw table a NaN cell is cleaned to
    [True], never to [False], and
    the cleaned table is the very table obtained from a raw table that has
    a genuine [True] in that cell. *)
Theorem missing_boolean_becomes_true (parse_number : pystr -> option pyfloat)
  (repr_number : Q -> pystr) (n : nat)
  (before after : list (pystr * list value)) (l : pystr)
  (above below : list value) :
  well_formed (rename_columns
    {| nrows := n; columns := before ++ (l, above ++ VNum NaN :: below) :: after |}) ->
  In (rename_label l) bool_cols ->
  preprocess_frame parse_number repr_number
    {| nrows := n; columns := before ++ (l, above ++ VNum NaN :: below) :: after |}
  = preprocess_frame parse_number repr_number
      {| nrows := n; columns := before ++ (l, above ++ VBool true :: below) :: after |}
  /\ In (rename_label l, astype_bool above ++ VBool true :: astype_bool below)
        (columns (preprocess_frame parse_number repr_number
           {| nrows := n;
              columns := before ++ (l, above ++ VNum NaN :: below) :: after |}))
  /\ truthy (VNum NaN) = true
  /\ astype_bool [VNum NaN] = [VBool true].
Proof.
  intros _ Hbool.
  destruct (clean_column_bool parse_number repr_number (rename_label l)
              (above ++ VNum NaN :: below) Hbool) as [Hnan Hkept].
  destruct (clean_column_bool parse_number repr_number (rename_label l)
              (above ++ VBool true :: below) Hbool) as [Htrue _].
  assert (Hsame : astype_bool (above ++ VNum NaN :: below)
                  = astype_bool (above ++ VBool true :: below)).
  { unfold astype_bool. rewrite !map_app. reflexivity. }
  split.
  { rewrite !preprocess_frame_eq. cbn [nrows columns]. f_equal.
    rewrite !map_app, !filter_app, !map_app. f_equal.
    cbn [map].
    change (renamed (l, above ++ VNum NaN :: below))
      with (rename_label l, above ++ VNum NaN :: below).
    change (renamed (l, above ++ VBool true :: below))
      with (rename_label l, above ++ VBool true :: below).
    cbn [filter].
    change (kept (rename_label l, above ++ VBool true :: below))
      with (kept (rename_label l, above ++ VNum NaN :: below)).
    rewrite Hkept. cbn [map fst snd]. rewrite Hnan, Htrue, Hsame. reflexivity. }
  split.
  { pose proof (cleaned_column_of_raw parse_number repr_number
                  {| nrows := n;
                     columns := before ++ (l, above ++ VNum NaN :: below) :: after |}
                  l (above ++ VNum NaN :: below)) as H.
    rewrite Hnan in H. unfold astype_bool in H at 1. rewrite map_app in H.
    apply H; [|exact Hkept].
    cbn [columns]. apply in_or_app. right. left. reflexivity. }
  split; reflexivity.
Qed.

Lemma missing_boolean_becomes_true_witness :
  well_formed (rename_columns
    {| nrows := 2%nat;
       columns := [ (u "Jobpost_IsRemote", [VBool false; VNum NaN]) ] |})
  /\ In (rename_label (u "Jobpost_IsRemote")) bool_cols
  /\ preprocess_frame read_decimal show_whole
       {| nrows := 2%nat;
          columns := [ (u "Jobpost_IsRemote", [VBool false; VNum NaN]) ] |}
     = preprocess_frame read_decimal show_whole
         {| nrows := 2%nat;
            columns := [ (u "Jobpost_IsRemote", [VBool false; VBool true]) ] |}.
Proof.
  assert (Hwf : well_formed (rename_columns
            {| nrows := 2%nat;
               columns := [ (u "Jobpost_IsRemote", [VBool false; VNum NaN]) ] |}))
    by (apply well_formed_b_sound; vm_compute; reflexivity).
  assert (H : In (rename_label (u "Jobpost_IsRemote")) bool_cols)
    by (vm_compute; tauto).
  split; [exact Hwf|]. split; [exact H|].
  exact (proj1 (missing_boolean_becomes_true read_decimal show_whole 2%nat
                  [] [] (u "Jobpost_IsRemote") [VBool false] [] Hwf H)).
Defined.

(** The end-to-end example of the specification: an unreadable salary, a
    numeric flag and a company size in Persian digits. *)
Example end_to_end :
  preprocess_job_data read_decimal show_whole (Loaded demo_frame)
  = Some {| nrows := 2%nat;
            columns :=
              [ (u "MinSalary", [VNum NaN; VNum (Fin 12000000)]);
                (u "IsRemote", [VBool true; VBool true]);
                (u "RawTitle", [VStr (u "Senior فناوری اطلاعات Manager");
                                VStr (u "کارشناس فروش")]);
                (u "Company_SizeFa", [VStr (u "زیر ۱۰ نفر"); VNum NaN]) ] |}
  /\ Normalizers.standardize_company_size (VStr (u "زیر ۱۰ نفر"))
     = Normalizers.tier_under_10.
Proof. split; vm_compute; reflexivity. Qed.

End PipelineFacts.

(** ** More on strings *)

Module StringLemmas.

Section ReplaceLemmas.

Variable eqc : codepoint -> codepoint -> bool.

(** Passing over the rest of a match. *)
Lemma replace_go_skip (old new pre rest : pystr) :
  replace_go eqc old new (List.length pre) (pre ++ rest)
  = replace_go eqc old new 0 rest.
Proof.
  induction pre as [|c pre IH]; [reflexivity|]. exact IH.
Qed.

(** A match at the head is replaced and the scan goes on behind it. *)
Lemma replace_by_head (o : codepoint) (o' new rest : pystr) :
  starts_with_by eqc (o :: o') (o :: o' ++ rest) = true ->
  replace_by eqc (o :: o') new (o :: o' ++ rest)
  = new ++ replace_by eqc (o :: o') new rest.
Proof.
  intros H. unfold replace_by.
  change (replace_go eqc (o :: o') new 0 (o :: o' ++ rest))
    with (if starts_with_by eqc (o :: o') (o :: o' ++ rest)
          then new ++ replace_go eqc (o :: o') new (List.length o') (o' ++ rest)
          else o :: replace_go eqc (o :: o') new 0 (o' ++ rest)).
  rewrite H, replace_go_skip. reflexivity.
Qed.

(** Replacement invents no character: what comes out was in the text or
    is in the replacement. *)
Lemma replace_go_chars (old new : pystr) (x : codepoint) (s : pystr) :
  forall skip, In x (replace_go eqc old new skip s) -> In x s \/ In x new.
Proof.
  induction s as [|c s IH]; intros skip H.
  - cbn [replace_go] in H. destruct skip, old; auto; contradiction.
  - cbn [replace_go] in H. destruct skip as [|k].
    + destruct (starts_with_by eqc old (c :: s)).
      * destruct old as [|o o'].
        -- apply in_app_or in H. destruct H as [H | [H | H]].
           ++ right. exact H.
           ++ left. left. exact H.
           ++ destruct (IH _ H); [left; right; assumption | right; assumption].
        -- apply in_app_or in H. destruct H as [H | H].
           ++ right. exact H.
           ++ destruct (IH _ H); [left; right; assumption | right; assumption].
      * destruct H as [H | H].
        -- left. left. exact H.
        -- destruct (IH _ H); [left; right; assumption | right; assumption].
    + destruct (IH _ H); [left; right; assumption | right; assumption].
Qed.

(** Replacing a pattern of one character leaves no character that matches
    it, unless the replacement brings one. *)
Lemma replace_by_single_chars (c : codepoint) (new : pystr) (x : codepoint)
  (s : pystr) :
  In x (replace_by eqc [c] new s) -> In x new \/ (In x s /\ eqc c x = false).
Proof.
  unfold replace_by. induction s as [|a s IH]; intros H.
  - contradiction.
  - cbn [replace_go starts_with_by List.length] in H.
    rewrite andb_true_r in H. destruct (eqc c a) eqn:E.
    + apply in_app_or in H. destruct H as [H | H]; [left; exact H|].
      destruct (IH H) as [Hn | [Hs Hx]]; [left; exact Hn|].
      right. split; [right; exact Hs | exact Hx].
    + destruct H as [H | H].
      * subst x. right. split; [left; reflexivity | exact E].
      * destruct (IH H) as [Hn | [Hs Hx]]; [left; exact Hn|].
        right. split; [right; exact Hs | exact Hx].
Qed.

End ReplaceLemmas.

Lemma starts_with_self (p rest : pystr) :
  starts_with_by N.eqb p (p ++ rest) = true.
Proof.
  induction p as [|c p IH]; [reflexivity|].
  cbn [starts_with_by app]. rewrite N.eqb_refl. exact IH.
Qed.

(** [s.replace(c, d)] for single characters is a character-wise map, and
    [s.replace(c, '')] removes the character. *)
Lemma replace_char_map (c d : codepoint) (s : pystr) :
  replace s [c] [d] = map (fun x => if N.eqb c x then d else x) s.
Proof.
  unfold replace, replace_by. induction s as [|a s IH]; [reflexivity|].
  cbn [replace_go starts_with_by List.length map].
  rewrite andb_true_r. destruct (N.eqb c a); cbn [app]; rewrite IH; reflexivity.
Qed.

Lemma replace_char_remove (c : codepoint) (s : pystr) :
  replace s [c] [] = filter (fun x => negb (N.eqb c x)) s.
Proof.
  unfold replace, replace_by. induction s as [|a s IH]; [reflexivity|].
  cbn [replace_go starts_with_by List.length filter].
  rewrite andb_true_r. destruct (N.eqb c a); cbn [app negb]; rewrite IH; reflexivity.
Qed.

(** A character-wise map keeps the occurrences of a pattern, mapped. *)
Lemma starts_with_map (f : codepoint -> codepoint) (p s : pystr) :
  starts_with_by N.eqb p s = true ->
  starts_with_by N.eqb (map f p) (map f s) = true.
Proof.
  revert s. induction p as [|a p IH]; intros s H; [reflexivity|].
  destruct s as [|c s]; [discriminate|].
  cbn [starts_with_by map] in *. apply andb_prop in H. destruct H as [Hac H].
  apply N.eqb_eq in Hac. subst c. rewrite N.eqb_refl. apply IH. exact H.
Qed.

Lemma contains_map (f : codepoint -> codepoint) (p s : pystr) :
  contains p s = true -> contains (map f p) (map f s) = true.
Proof.
  unfold contains. intros H.
  destruct (contains_by_split _ _ _ H) as (pre & post & -> & Hpost).
  rewrite map_app. apply contains_by_app, starts_with_contains.
  apply starts_with_map. exact Hpost.
Qed.

(** *** [str.strip] *)

Lemma lstrip_fixed (s : pystr) :
  match s with
  | [] => true
  | c :: _ => negb (is_space c)
  end = true ->
  lstrip s = s.
Proof.
  destruct s as [|c s]; [reflexivity|]. cbn [lstrip].
  intros H. apply negb_true_iff in H. rewrite H. reflexivity.
Qed.

Lemma lstrip_head (s : pystr) :
  match lstrip s with
  | [] => true
  | c :: _ => negb (is_space c)
  end = true.
Proof.
  induction s as [|c s IH]; [reflexivity|]. cbn [lstrip].
  destruct (is_space c) eqn:E; [exact IH|]. rewrite E. reflexivity.
Qed.

Lemma lstrip_suffix (s : pystr) : exists pre, s = pre ++ lstrip s.
Proof.
  induction s as [|c s [pre IH]]; [exists []; reflexivity|]. cbn [lstrip].
  destruct (is_space c).
  - exists (c :: pre). cbn [app]. f_equal. exact IH.
  - exists []. reflexivity.
Qed.

(** The head of a stripped string is no space. *)
Lemma strip_head (s : pystr) :
  match strip s with
  | [] => true
  | c :: _ => negb (is_space c)
  end = true.
Proof.
  unfold strip.
  destruct (lstrip_suffix (rev (lstrip s))) as [pre Hpre].
  pose proof (lstrip_head s) as Hhead.
  assert (Hrev : lstrip s = rev (lstrip (rev (lstrip s))) ++ rev pre).
  { rewrite <- rev_app_distr, <- Hpre, rev_involutive. reflexivity. }
  destruct (rev (lstrip (rev (lstrip s)))) as [|c t] eqn:E; [reflexivity|].
  rewrite Hrev in Hhead. exact Hhead.
Qed.

(** Stripping twice is stripping once. *)
Lemma strip_idempotent (s : pystr) : strip (strip s) = strip s.
Proof.
  pose proof (strip_head s) as Hhead.
  unfold strip at 1. rewrite (lstrip_fixed (strip s) Hhead).
  unfold strip. rewrite rev_involutive.
  rewrite (lstrip_fixed _ (lstrip_head (rev (lstrip s)))). reflexivity.
Qed.

End StringLemmas.

Import StringLemmas.

(** ** More on the pipeline *)

Module PipelineProperties.

Import Pipeline PipelineFacts PipelineTables.

(** X1. The column reshaper strips the prefix [Jobpost_] exactly, whatever
    follows it, and corrects the misspelt [Comany_] at the head of a label
    and wherever else it occurs in that label. *)
Theorem rename_label_prefixes (rest : pystr) :
  rename_label (u "Jobpost_" ++ rest) = rest
  /\ rename_label (u "Comany_" ++ rest)
     = u "Company_" ++ replace rest (u "Comany_") (u "Company_").
Proof.
  split.
  - unfold rename_label, startswith.
    rewrite (starts_with_self (u "Jobpost_") rest). reflexivity.
  - unfold rename_label, startswith.
    change (starts_with_by N.eqb (u "Jobpost_") (u "Comany_" ++ rest)) with false.
    rewrite (starts_with_self (u "Comany_") rest).
    apply (replace_by_head N.eqb).
    apply (starts_with_self (u "Comany_") rest).
Qed.

(** X2. No dropped label survives, and a raw column is dropped for no other
    reason than its new label. *)
Theorem dropped_columns_absent (parse_number : pystr -> option pyfloat)
  (repr_number : Q -> pystr) (df : DataFrame) (l : pystr) :
  well_formed (rename_columns df) ->
  In l (labels (preprocess_frame parse_number repr_number df))
  <-> exists l0, In l0 (labels df) /\ l = rename_label l0
                 /\ existsb (str_eqb l) cols_to_drop = false.
Proof.
  intros _.
  rewrite labels_preprocess_frame, filter_In, in_map_iff, negb_true_iff.
  split.
  - intros [(l0 & <- & Hin) Hkept]. exists l0. auto.
  - intros (l0 & Hin & -> & Hkept). split; [exists l0; auto | exact Hkept].
Qed.

Lemma dropped_columns_absent_witness :
  well_formed (rename_columns demo_frame)
  /\ In (u "MinSalary")
        (labels (preprocess_frame read_decimal show_whole demo_frame))
  /\ (In (u "RowNumber")
         (labels (preprocess_frame read_decimal show_whole demo_frame))
       -> False).
Proof.
  split; [exact demo_frame_well_formed|]. split.
  - apply (proj2 (dropped_columns_absent read_decimal show_whole demo_frame
                    (u "MinSalary") demo_frame_well_formed)).
    exists (u "Jobpost_MinSalary").
    split; [cbn; tauto|]. split; reflexivity.
  - intros H.
    destruct (proj1 (dropped_columns_absent read_decimal show_whole demo_frame
                       (u "RowNumber") demo_frame_well_formed) H)
      as (l0 & _ & _ & Hdrop).
    discriminate Hdrop.
Defined.

Lemma on_label_absent {A : Type} (key : A -> pystr)
  (F : A -> list value -> list value) (items : list A) (l : pystr)
  (vs : list value) :
  existsb (str_eqb l) (map key items) = false ->
  on_label key F items l vs = vs.
Proof.
  unfold on_label. revert vs.
  induction items as [|it items IH]; intros vs H; [reflexivity|].
  cbn [map existsb] in H. apply orb_false_elim in H. destruct H as [Hit Hrest].
  cbn [fold_left]. rewrite Hit. apply IH. exact Hrest.
Qed.

(** X3. A column that no stage names goes through the pipeline as it is,
    under its new label. *)
Theorem unnamed_column_untouched (parse_number : pystr -> option pyfloat)
  (repr_number : Q -> pystr) (df : DataFrame) (l : pystr) (vs : list value) :
  well_formed (rename_columns df) ->
  In (l, vs) (columns df) ->
  existsb (str_eqb (rename_label l)) named_labels = false ->
  In (rename_label l, vs)
     (columns (preprocess_frame parse_number repr_number df)).
Proof.
  intros _ Hin H. unfold named_labels in H.
  rewrite !existsb_app in H.
  apply orb_false_elim in H. destruct H as [Hdrop H].
  apply orb_false_elim in H. destruct H as [Htext H].
  apply orb_false_elim in H. destruct H as [Hfill H].
  apply orb_false_elim in H. destruct H as [Hbool Hnum].
  assert (Hkept : kept (rename_label l, vs) = true).
  { unfold kept. cbn [fst]. rewrite Hdrop. reflexivity. }
  pose proof (cleaned_column_of_raw parse_number repr_number df l vs Hin Hkept)
    as Hout.
  assert (Hclean : clean_column parse_number repr_number (rename_label l) vs = vs).
  { unfold clean_column.
    rewrite (on_label_absent (fun col => col) _ columns_to_clean);
      [|rewrite map_id; exact Htext].
    rewrite (on_label_absent fst _ categorical_fills); [|exact Hfill].
    rewrite (on_label_absent (fun col => col) _ bool_cols);
      [|rewrite map_id; exact Hbool].
    rewrite (on_label_absent (fun col => col) _ numeric_cols);
      [|rewrite map_id; exact Hnum].
    reflexivity. }
  rewrite Hclean in Hout. exact Hout.
Qed.

Lemma unnamed_column_untouched_witness :
  well_formed (rename_columns demo_frame)
  /\ In (u "Comany_SizeFa", [VStr (u "زیر ۱۰ نفر"); VNum NaN]) (columns demo_frame)
  /\ existsb (str_eqb (rename_label (u "Comany_SizeFa"))) named_labels = false
  /\ In (u "Company_SizeFa", [VStr (u "زیر ۱۰ نفر"); VNum NaN])
        (columns (preprocess_frame read_decimal show_whole demo_frame)).
Proof.
  assert (H1 : In (u "Comany_SizeFa", [VStr (u "زیر ۱۰ نفر"); VNum NaN])
                  (columns demo_frame)) by (cbn; tauto).
  assert (H2 : existsb (str_eqb (rename_label (u "Comany_SizeFa"))) named_labels
               = false) by (vm_compute; reflexivity).
  split; [exact demo_frame_well_formed|]. split; [exact H1|]. split; [exact H2|].
  exact (unnamed_column_untouched read_decimal show_whole demo_frame _ _
           demo_frame_well_formed H1 H2).
Defined.

Lemma clean_column_filled (parse_number : pystr -> option pyfloat)
  (repr_number : Q -> pystr) (l : pystr) (fill_value : value)
  (vs : list value) :
  In (l, fill_value) filled_columns ->
  clean_column parse_number repr_number l vs = fillna fill_value vs
  /\ kept (l, vs) = true
  /\ isna fill_value = false
  /\ dict_find categorical_fills l = Some fill_value.
Proof.
  intros H. cbn [filled_columns In] in H.
  repeat (destruct H as [H | H];
          [injection H as <- <-; repeat split; reflexivity|]).
  contradiction.
Qed.

(** X4. After the pipeline the province, the work type and the required years
    have no missing cell: the cleaned column is the raw column with NaN
    replaced by the fill value of the column ("unspecified", or 0 for the
    years), every other cell being kept. *)
Theorem filled_columns_have_no_missing (parse_number : pystr -> option pyfloat)
  (repr_number : Q -> pystr) (df : DataFrame) (l : pystr) (vs : list value)
  (fill_value : value) :
  well_formed (rename_columns df) ->
  In (l, vs) (columns df) ->
  In (rename_label l, fill_value) filled_columns ->
  In (rename_label l, map (fun v => if isna v then fill_value else v) vs)
     (columns (preprocess_frame parse_number repr_number df))
  /\ Forall (fun v => isna v = false)
            (map (fun v => if isna v then fill_value else v) vs)
  /\ dict_find categorical_fills (rename_label l) = Some fill_value.
Proof.
  intros _ Hin Hfill.
  destruct (clean_column_filled parse_number repr_number (rename_label l)
              fill_value vs Hfill) as (Hclean & Hkept & Hfv & Hdict).
  split.
  { pose proof (cleaned_column_of_raw parse_number repr_number df l vs Hin Hkept)
      as H.
    rewrite Hclean in H. exact H. }
  split; [|exact Hdict].
  apply Forall_forall. intros v Hv.
  apply in_map_iff in Hv. destruct Hv as (v0 & <- & _).
  destruct (isna v0) eqn:E; [exact Hfv | exact E].
Qed.

Lemma filled_columns_have_no_missing_witness :
  let df := {| nrows := 2%nat;
               columns := [ (u "Jobpost_ProvinceFa", [VNum NaN; VStr (u "تهران")]) ] |} in
  well_formed (rename_columns df)
  /\ In (u "Jobpost_ProvinceFa", [VNum NaN; VStr (u "تهران")]) (columns df)
  /\ In (rename_label (u "Jobpost_ProvinceFa"), VStr unspecified) filled_columns
  /\ In (u "ProvinceFa", [VStr unspecified; VStr (u "تهران")])
        (columns (preprocess_frame read_decimal show_whole df)).
Proof.
  intros df.
  assert (H1 : In (u "Jobpost_ProvinceFa", [VNum NaN; VStr (u "تهران")])
                  (columns df)) by (cbn; tauto).
  assert (H2 : In (rename_label (u "Jobpost_ProvinceFa"), VStr unspecified)
                  filled_columns) by (cbn; tauto).
  assert (Hwf : well_formed (rename_columns df))
    by (apply well_formed_b_sound; vm_compute; reflexivity).
  split; [exact Hwf|]. split; [exact H1|]. split; [exact H2|].
  exact (proj1 (filled_columns_have_no_missing read_decimal show_whole df
                  _ _ _ Hwf H1 H2)).
Defined.

(** X5. In the four text columns every cleaned cell is a string: a missing
    cell has become the text [nan], so that the fill of [MainJobCategory],
    which comes after the text cleaning, changes nothing. *)
Theorem text_columns_hold_strings (parse_number : pystr -> option pyfloat)
  (repr_number : Q -> pystr) (df : DataFrame) (l : pystr) (vs : list value) :
  well_formed (rename_columns df) ->
  In (l, vs) (columns df) ->
  In (rename_label l) columns_to_clean ->
  In (rename_label l, map (fun v => VStr (translate (str_of repr_number v))) vs)
     (columns (preprocess_frame parse_number repr_number df))
  /\ Forall (fun v => is_str v = true /\ isna v = false)
            (map (fun v => VStr (translate (str_of repr_number v))) vs)
  /\ translate (str_of repr_number (VNum NaN)) = u "nan".
Proof.
  intros _ Hin Htext.
  destruct (clean_column_text parse_number repr_number (rename_label l) vs Htext)
    as [Hclean Hkept].
  split.
  { pose proof (cleaned_column_of_raw parse_number repr_number df l vs Hin Hkept)
      as H.
    rewrite Hclean, clean_text_cells in H. exact H. }
  split.
  - apply Forall_forall. intros v Hv.
    apply in_map_iff in Hv. destruct Hv as (v0 & <- & _). split; reflexivity.
  - vm_compute. reflexivity.
Qed.

Lemma text_columns_hold_strings_witness :
  let df := {| nrows := 2%nat;
               columns := [ (u "MainJobCategory", [VNum NaN; VStr (u "IT")]) ] |} in
  well_formed (rename_columns df)
  /\ In (u "MainJobCategory", [VNum NaN; VStr (u "IT")]) (columns df)
  /\ In (rename_label (u "MainJobCategory")) columns_to_clean
  /\ In (u "MainJobCategory", [VStr (u "nan"); VStr (u "فناوری اطلاعات")])
        (columns (preprocess_frame read_decimal show_whole df)).
Proof.
  intros df.
  assert (H1 : In (u "MainJobCategory", [VNum NaN; VStr (u "IT")]) (columns df))
    by (cbn; tauto).
  assert (H2 : In (rename_label (u "MainJobCategory")) columns_to_clean)
    by (cbn; tauto).
  assert (Hwf : well_formed (rename_columns df))
    by (apply well_formed_b_sound; vm_compute; reflexivity).
  split; [exact Hwf|]. split; [exact H1|]. split; [exact H2|].
  exact (proj1 (text_columns_hold_strings read_decimal show_whole df _ _
                  Hwf H1 H2)).
Defined.

Lemma no_char_spec (c : codepoint) (s : pystr) :
  existsb (N.eqb c) s = false <-> ~ In c s.
Proof.
  split.
  - intros H Hin.
    assert (Hex : existsb (N.eqb c) s = true).
    { apply existsb_exists. exists c. split; [exact Hin | apply N.eqb_refl]. }
    congruence.
  - intros H. destruct (existsb (N.eqb c) s) eqn:E; [|reflexivity].
    apply existsb_exists in E. destruct E as (x & Hx & Hcx).
    apply N.eqb_eq in Hcx. subst x. contradiction.
Qed.

(** A dictionary pass brings no slash if no target has one. *)
Lemma dictionary_pass_keeps_slash_free (entries : list (pystr * pystr))
  (s : pystr) :
  forallb (fun entry => negb (existsb (N.eqb 47) (snd entry))) entries = true ->
  ~ In 47%N s ->
  ~ In 47%N (fold_left (fun s entry => replace_ci s (fst entry) (snd entry))
                       entries s).
Proof.
  revert s. induction entries as [|entry entries IH]; intros s Htargets Hs.
  - exact Hs.
  - cbn [forallb] in Htargets. apply andb_prop in Htargets.
    destruct Htargets as [Htarget Hrest]. cbn [fold_left].
    apply IH; [exact Hrest|]. intros Hin.
    apply negb_true_iff, no_char_spec in Htarget.
    unfold replace_ci, replace_by in Hin.
    destruct (replace_go_chars ci_eq _ _ _ _ _ Hin); contradiction.
Qed.

(** The pass for the slash itself removes every slash. *)
Lemma dictionary_pass_removes_slash (entries : list (pystr * pystr))
  (s : pystr) :
  forallb (fun entry => negb (existsb (N.eqb 47) (snd entry))) entries = true ->
  existsb (fun entry => str_eqb (fst entry) [47%N]) entries = true ->
  ~ In 47%N (fold_left (fun s entry => replace_ci s (fst entry) (snd entry))
                       entries s).
Proof.
  revert s. induction entries as [|entry entries IH]; intros s Htargets Hkey.
  - discriminate.
  - cbn [forallb] in Htargets. apply andb_prop in Htargets.
    destruct Htargets as [Htarget Hrest].
    cbn [existsb] in Hkey. cbn [fold_left].
    destruct (str_eqb (fst entry) [47%N]) eqn:E.
    + apply str_eqb_eq in E.
      apply dictionary_pass_keeps_slash_free; [exact Hrest|].
      intros Hin. rewrite E in Hin.
      apply negb_true_iff, no_char_spec in Htarget.
      destruct (replace_by_single_chars ci_eq _ _ _ _ Hin) as [Hn | [_ Hx]];
        [contradiction | discriminate Hx].
    + apply IH; [exact Hrest | exact Hkey].
Qed.

(** X6. The translated text has no slash, hence no separator, left: the
    dictionary has an entry for the slash and no target brings one back. *)
Theorem translate_leaves_no_slash (s : pystr) :
  existsb (N.eqb 47) (translate s) = false
  /\ contains separator (translate s) = false.
Proof.
  assert (H : ~ In 47%N (translate s)).
  { unfold translate. apply dictionary_pass_removes_slash;
      vm_compute; reflexivity. }
  split; [apply no_char_spec; exact H|].
  destruct (contains separator (translate s)) eqn:E; [|reflexivity].
  exfalso. apply H.
  destruct (contains_by_split _ _ _ E) as (pre & post & Heq & Hpost).
  rewrite Heq. apply in_or_app. right.
  destruct post as [|a post];
    [cbn [separator starts_with_by] in Hpost; discriminate|].
  destruct post as [|b post];
    cbn [separator starts_with_by] in Hpost;
    [rewrite andb_false_r in Hpost; discriminate|].
  apply andb_prop in Hpost. destruct Hpost as [_ Hpost].
  apply andb_prop in Hpost. destruct Hpost as [Hb _].
  apply N.eqb_eq in Hb. subst b. right. left. reflexivity.
Qed.

End PipelineProperties.

(** ** More on the embedded-list parsers *)

Module ParserProperties.

Import Parsers ParserFacts ListParsers.

Lemma valid_skills_attributes (items : list json) :
  valid_skills items = valid_attributes (u "TitleFa") items.
Proof.
  induction items as [|item items IH]; [reflexivity|].
  cbn [valid_skills valid_attributes]. rewrite IH. reflexivity.
Qed.

Lemma parse_software_skills_attribute_list (text : value) :
  parse_software_skills text = parse_attribute_list (u "TitleFa") text.
Proof.
  unfold parse_software_skills, parse_attribute_list.
  destruct (isna text || negb (is_str text)); [reflexivity|].
  destruct text as [s| |]; try reflexivity.
  destruct (loads (replace s single_quote double_quote)) as [data|e];
    [|reflexivity].
  destruct data; try reflexivity.
  cbn [bind]. rewrite valid_skills_attributes. reflexivity.
Qed.

(** The list comprehension, in closed form. *)
Lemma valid_attributes_outcome (key : pystr) (items : list json) :
  valid_attributes key items
  = if forallb (well_typed key) items
    then Ret (filter nonblank (map (stripped_attribute key) items))
    else Raise AttributeError.
Proof.
  induction items as [|item items IH]; [reflexivity|].
  cbn [valid_attributes forallb map filter].
  unfold well_typed at 1, stripped_attribute at 1 2, attribute_of.
  destruct item as [| | | | | |members]; try reflexivity.
  cbn [py_get py_get_default bind].
  destruct (dict_find members key) as [v|]; [|cbn; exact IH].
  destruct v as [|b|z|x|t|l|m]; cbn [truth bind py_strip negb].
  - exact IH.
  - destruct b; [reflexivity | exact IH].
  - destruct (z =? 0)%Z; [exact IH | reflexivity].
  - destruct x as [| |q]; try reflexivity.
    destruct (reads_as_zero q); [exact IH | reflexivity].
  - unfold nonblank at 1.
    destruct t as [|c t]; [cbn; exact IH|].
    cbn [str_eqb negb bind py_strip andb].
    destruct (str_eqb (strip (c :: t)) []); cbn [negb bind].
    + exact IH.
    + rewrite IH. destruct (forallb (well_typed key) items); reflexivity.
  - destruct l; [exact IH | reflexivity].
  - destruct m; [exact IH | reflexivity].
Qed.

Lemma parse_attribute_list_outcome (key : pystr) (text : value) :
  parse_attribute_list key text = list_outcome key text.
Proof.
  unfold parse_attribute_list, list_outcome.
  destruct text as [s|b|x]; [|reflexivity|destruct x; reflexivity].
  cbn [isna is_str negb orb].
  destruct (loads (replace s single_quote double_quote)) as [data|e] eqn:E.
  - destruct data; try reflexivity.
    cbn [bind]. rewrite valid_attributes_outcome.
    destruct (forallb (well_typed key) items); reflexivity.
  - apply loads_raises_decode_error in E. subst e. reflexivity.
Qed.

Lemma list_parsers_outcome_aux (text : value) :
  parse_software_skills text = list_outcome (u "TitleFa") text
  /\ parse_academic_fields text = list_outcome (u "FieldType") text
  /\ parse_language_skills text = list_outcome (u "Languages_TitleFa") text.
Proof.
  split; [|split].
  - rewrite parse_software_skills_attribute_list.
    apply parse_attribute_list_outcome.
  - apply parse_attribute_list_outcome.
  - apply parse_attribute_list_outcome.
Qed.


Lemma list_outcome_trimmed (key : pystr) (text : value) (titles : list pystr) :
  list_outcome key text = Ret titles ->
  Forall (fun t => t <> [] /\ strip t = t) titles.
Proof.
  unfold list_outcome. intros H.
  destruct text as [s| |]; try (injection H as <-; constructor).
  destruct (loads (replace s single_quote double_quote)) as [data|e];
    [|injection H as <-; constructor].
  destruct data; try (injection H as <-; constructor).
  destruct (forallb (well_typed key) items); [|discriminate].
  injection H as <-. apply Forall_forall. intros t Ht.
  apply filter_In in Ht. destruct Ht as [Ht Hnb].
  apply in_map_iff in Ht. destruct Ht as (item & <- & _).
  split.
  - intros Hempty. unfold nonblank in Hnb. rewrite Hempty in Hnb. discriminate.
  - unfold stripped_attribute.
    destruct (attribute_of key item) as [[| | | |t| |]|]; try reflexivity.
    apply strip_idempotent.
Qed.

(** X8. Whatever a list parser returns is clean: no title is empty and none
    has white space at either end. *)
Theorem parsed_titles_are_trimmed (text : value) (titles : list pystr) :
  parse_software_skills text = Ret titles
  \/ parse_academic_fields text = Ret titles
  \/ parse_language_skills text = Ret titles ->
  Forall (fun t => t <> [] /\ strip t = t) titles.
Proof.
  destruct (list_parsers_outcome_aux text) as (H1 & H2 & H3).
  intros [H | [H | H]].
  - rewrite H1 in H. exact (list_outcome_trimmed _ _ _ H).
  - rewrite H2 in H. exact (list_outcome_trimmed _ _ _ H).
  - rewrite H3 in H. exact (list_outcome_trimmed _ _ _ H).
Qed.

Lemma parsed_titles_are_trimmed_witness :
  parse_software_skills
    (VStr (u "[{'TitleFa': ' Python '}, {'TitleFa': ' '}, {'Level': 3}]"))
  = Ret [u "Python"]
  /\ Forall (fun t => t <> [] /\ strip t = t) [u "Python"].
Proof.
  split; [vm_compute; reflexivity|].
  apply (parsed_titles_are_trimmed
           (VStr (u "[{'TitleFa': ' Python '}, {'TitleFa': ' '}, {'Level': 3}]"))
           [u "Python"]).
  left. vm_compute. reflexivity.
Defined.

(** The quote replacement cannot be told from its result. *)
Lemma single_quotes_replaced_once (text : pystr) :
  replace (replace text single_quote double_quote) single_quote double_quote
  = replace text single_quote double_quote.
Proof.
  unfold single_quote, double_quote. rewrite !replace_char_map, map_map.
  apply map_ext. intros c.
  destruct (N.eqb 39 c) eqn:E; [reflexivity|]. rewrite E. reflexivity.
Qed.

(** X9. The parsers do not tell a single quote from a double quote: a text and
    the text with every single quote written as a double quote are parsed
    to the same result. *)
Theorem quotes_are_interchangeable (text : pystr) :
  let text' := replace text single_quote double_quote in
  parse_software_skills (VStr text') = parse_software_skills (VStr text)
  /\ parse_academic_fields (VStr text') = parse_academic_fields (VStr text)
  /\ parse_language_skills (VStr text') = parse_language_skills (VStr text)
  /\ parse_degree_level (VStr text') = parse_degree_level (VStr text).
Proof.
  cbv zeta.
  unfold parse_academic_fields, parse_language_skills, parse_attribute_list,
    parse_software_skills, parse_degree_level.
  cbn [isna is_str negb orb].
  rewrite (single_quotes_replaced_once text). repeat split; reflexivity.
Qed.


End ParserProperties.

(** ** The aggregations of the charts *)

Module CountLemmas.

Import Analyses.

Lemma list_sum_cons (n : nat) (l : list nat) :
  list_sum (n :: l) = (n + list_sum l)%nat.
Proof. reflexivity. Qed.

Lemma dict_find_set {V : Type} (d : list (pystr * V)) (k k' : pystr) (v : V) :
  dict_find (dict_set d k v) k'
  = if str_eqb k k' then Some v else dict_find d k'.
Proof.
  induction d as [|[k0 v0] d IH]; [reflexivity|].
  cbn [dict_set dict_find].
  destruct (str_eqb k0 k) eqn:E0; cbn [dict_find].
  - apply str_eqb_eq in E0. subst k0.
    destruct (str_eqb k k'); reflexivity.
  - rewrite IH. destruct (str_eqb k0 k') eqn:E1; [|reflexivity].
    destruct (str_eqb k k') eqn:E2; [|reflexivity].
    apply str_eqb_eq in E1. apply str_eqb_eq in E2. subst.
    rewrite str_eqb_refl in E0. discriminate.
Qed.

Lemma occurrences_snoc (label x : pystr) (series : list pystr) :
  occurrences label (series ++ [x])
  = (occurrences label series + if str_eqb label x then 1 else 0)%nat.
Proof.
  unfold occurrences. rewrite filter_app, length_app. cbn [filter].
  destruct (str_eqb label x); reflexivity.
Qed.

(** [value_counts] holds, for a label, the number of its rows, and holds
    nothing for a label without any. *)
Lemma value_counts_find (series : list pystr) (label : pystr) :
  dict_find (value_counts series) label
  = if Nat.eqb (occurrences label series) 0 then None
    else Some (occurrences label series).
Proof.
  unfold value_counts.
  induction series as [|x series IH] using rev_ind; [reflexivity|].
  rewrite fold_left_app. cbn [fold_left]. unfold count_up at 1.
  rewrite dict_find_set, occurrences_snoc, (str_eqb_sym label x).
  destruct (str_eqb x label) eqn:E.
  - apply str_eqb_eq in E. subst x. rewrite IH.
    destruct (occurrences label series) as [|n]; cbn [Nat.eqb Nat.add].
    + reflexivity.
    + rewrite Nat.add_1_r. reflexivity.
  - rewrite IH, Nat.add_0_r. reflexivity.
Qed.

Lemma dropna_reindex (order series : list pystr) :
  dropna (reindex order (value_counts series))
  = filter (fun bar => negb (Nat.eqb (snd bar) 0))
      (map (fun label => (label, occurrences label series)) order).
Proof.
  unfold reindex.
  induction order as [|label order IH]; [reflexivity|].
  cbn [map dropna filter snd]. rewrite value_counts_find.
  destruct (Nat.eqb (occurrences label series) 0); cbn [negb];
    rewrite IH; reflexivity.
Qed.

Lemma total_dropna_reindex (order series : list pystr) :
  total (dropna (reindex order (value_counts series)))
  = list_sum (map (fun label => occurrences label series) order).
Proof.
  rewrite dropna_reindex. unfold total.
  induction order as [|label order IH]; [reflexivity|].
  cbn [map filter snd].
  destruct (Nat.eqb (occurrences label series) 0) eqn:E; cbn [negb].
  - apply Nat.eqb_eq in E. rewrite list_sum_cons, E, IH. reflexivity.
  - cbn [map snd]. rewrite !list_sum_cons, IH. reflexivity.
Qed.

Lemma one_label_of_order (order : list pystr) (x : pystr) :
  NoDup order ->
  list_sum (map (fun label => if str_eqb label x then 1%nat else 0%nat) order)
  = if existsb (str_eqb x) order then 1%nat else 0%nat.
Proof.
  induction 1 as [|label order Hnotin Hnodup IH]; [reflexivity|].
  cbn [map existsb]. rewrite list_sum_cons, IH, (str_eqb_sym x label).
  destruct (str_eqb label x) eqn:E; [|reflexivity].
  apply str_eqb_eq in E. subst x.
  destruct (existsb (str_eqb label) order) eqn:Ex; [|reflexivity].
  apply existsb_exists in Ex. destruct Ex as (l & Hin & Hl).
  apply str_eqb_eq in Hl. subst l. contradiction.
Qed.

(** Over an order without repetition, the counts add up to the rows whose
    label the order has. *)
Lemma sum_of_occurrences (order series : list pystr) :
  NoDup order ->
  list_sum (map (fun label => occurrences label series) order)
  = List.length (filter (fun x => existsb (str_eqb x) order) series).
Proof.
  intros Hnodup. induction series as [|x series IH].
  - unfold occurrences. cbn [filter List.length].
    induction order; [reflexivity|]. cbn [map]. rewrite list_sum_cons.
    apply IHorder. inversion Hnodup; assumption.
  - transitivity
      ((if existsb (str_eqb x) order then 1 else 0)
       + list_sum (map (fun label => occurrences label series) order))%nat.
    + rewrite <- (one_label_of_order order x Hnodup).
      clear IH Hnodup. induction order as [|label order IHo]; [reflexivity|].
      cbn [map]. rewrite !list_sum_cons, IHo. unfold occurrences at 1 3.
      cbn [filter]. destruct (str_eqb label x); cbn [List.length]; lia.
    + rewrite IH. cbn [filter].
      destruct (existsb (str_eqb x) order); reflexivity.
Qed.

(** When every row has a label of the order, no row is lost. *)
Lemma total_of_ordered (order series : list pystr) :
  NoDup order ->
  Forall (fun x => existsb (str_eqb x) order = true) series ->
  total (dropna (reindex order (value_counts series))) = List.length series.
Proof.
  intros Hnodup Hall.
  rewrite total_dropna_reindex, (sum_of_occurrences order series Hnodup).
  f_equal. induction Hall as [|x series Hx Hall IH]; [reflexivity|].
  cbn [filter]. rewrite Hx, IH. reflexivity.
Qed.

Lemma occurrences_map {A : Type} (f : A -> pystr) (label : pystr) (rows : list A) :
  occurrences label (map f rows)
  = List.length (filter (fun row => str_eqb label (f row)) rows).
Proof.
  unfold occurrences. induction rows as [|row rows IH]; [reflexivity|].
  cbn [map filter]. destruct (str_eqb label (f row)); cbn [List.length];
    rewrite IH; reflexivity.
Qed.

Lemma filter_filter {A : Type} (f g : A -> bool) (rows : list A) :
  filter f (filter g rows) = filter (fun row => g row && f row) rows.
Proof.
  induction rows as [|row rows IH]; [reflexivity|].
  cbn [filter]. destruct (g row); cbn [filter andb]; rewrite IH; reflexivity.
Qed.

End CountLemmas.

Module AnalysisProperties.

Import Normalizers Analyses PipelineFacts CountLemmas.

(** *** The experience chart *)

(** X11. The bars of the experience chart are the levels of [level_order], in
    that order, that have a row; the number beside a level is the number
    of rows with at most twenty years whose years fall in the level. *)
Theorem experience_bars (years : list pyfloat) :
  experience_counts years
  = filter (fun bar => negb (Nat.eqb (snd bar) 0))
      (map (fun label =>
              (label,
               List.length
                 (filter (fun y => fle y EXPERIENCE_OUTLIER_CAP
                                   && str_eqb label (categorize_experience y))
                         years)))
           level_order).
Proof.
  unfold experience_counts. cbv zeta. rewrite dropna_reindex.
  f_equal. apply map_ext. intros label.
  rewrite occurrences_map, filter_filter. reflexivity.
Qed.

Lemma level_order_distinct : NoDup level_order.
Proof. apply distinct_NoDup. vm_compute. reflexivity. Qed.

Lemma present_years_have_a_level (y : pyfloat) :
  isna (VNum y) = false ->
  existsb (str_eqb (categorize_experience y)) level_order = true.
Proof.
  intros Hy. unfold categorize_experience. rewrite Hy.
  destruct (fle y 1); [vm_compute; reflexivity|].
  destruct (flt_lit 1 y && fle y 3); [vm_compute; reflexivity|].
  destruct (flt_lit 3 y && fle y 7); [vm_compute; reflexivity|].
  destruct (flt_lit 7 y && fle y 10); vm_compute; reflexivity.
Qed.

(** X12. No row is lost between the filter and the bars: the numbers of the
    experience chart add up to the number of rows with at most twenty
    years. A row without years is left out by the comparison, not by the
    order of the levels. *)
Theorem experience_rows_all_counted (years : list pyfloat) :
  total (experience_counts years)
  = List.length (filter (fun y => fle y EXPERIENCE_OUTLIER_CAP) years).
Proof.
  unfold experience_counts. cbv zeta.
  rewrite (total_of_ordered level_order _ level_order_distinct).
  - apply length_map.
  - apply Forall_forall. intros x Hx.
    apply in_map_iff in Hx. destruct Hx as (y & <- & Hy).
    apply filter_In in Hy. destruct Hy as [_ Hy].
    apply present_years_have_a_level.
    destruct y; [discriminate | reflexivity | reflexivity].
Qed.

Lemma level_of_finite (q : Q) :
  position level_order (categorize_experience (Fin q))
  = if Qle_bool q 1 then 0%nat
    else if Qle_bool q 3 then 1%nat
    else if Qle_bool q 7 then 2%nat
    else if Qle_bool q 10 then 3%nat
    else 4%nat.
Proof.
  unfold categorize_experience. cbn [isna fle flt_lit].
  destruct (Qle_bool q 1); [vm_compute; reflexivity|].
  destruct (Qle_bool q 3); [vm_compute; reflexivity|].
  destruct (Qle_bool q 7); [vm_compute; reflexivity|].
  destruct (Qle_bool q 10); vm_compute; reflexivity.
Qed.

Lemma Qle_bool_false (p q : Q) : Qle_bool p q = false -> (q < p)%Q.
Proof.
  intros H. apply Qnot_le_lt. intros Hle.
  apply Qle_bool_iff in Hle. congruence.
Qed.

Ltac compare_years :=
  repeat match goal with
         | |- context [Qle_bool ?a ?b] =>
           let E := fresh "E" in
           destruct (Qle_bool a b) eqn:E;
           [apply Qle_bool_iff in E | apply Qle_bool_false in E]
         end.

(** X13. More years never give a lower level: the level rises with the years,
    in the order in which the chart lists the levels. *)
Theorem experience_level_monotone (x y : pyfloat) :
  float_le x y = true ->
  (position level_order (categorize_experience x)
   <= position level_order (categorize_experience y))%nat.
Proof.
  assert (Hlow : position level_order (categorize_experience (Inf true)) = 0%nat)
    by (vm_compute; reflexivity).
  assert (Hhigh : position level_order (categorize_experience (Inf false)) = 4%nat)
    by (vm_compute; reflexivity).
  destruct x as [|[|]|p], y as [|[|]|q]; cbn [float_le]; intros H;
    try discriminate; rewrite ?Hlow, ?Hhigh, ?level_of_finite;
    try apply Nat.le_0_l; try apply Nat.le_refl.
  - compare_years; lia.
  - apply Qle_bool_iff in H. compare_years; try lia; exfalso; lra.
Qed.

Lemma experience_level_monotone_witness :
  float_le (Fin 2) (Fin 5) = true
  /\ (position level_order (categorize_experience (Fin 2))
      <= position level_order (categorize_experience (Fin 5)))%nat.
Proof.
  split; [reflexivity|].
  apply (experience_level_monotone (Fin 2) (Fin 5)). reflexivity.
Defined.

(** *** The company-size chart *)

Lemma size_order_distinct : NoDup size_order.
Proof. apply distinct_NoDup. vm_compute. reflexivity. Qed.

Lemma company_size_labels (size_str : value) :
  str_eqb (standardize_company_size size_str) unspecified = true
  \/ existsb (str_eqb (standardize_company_size size_str)) size_order = true.
Proof.
  destruct size_str as [s|b|x]; [|left; vm_compute; reflexivity ..].
  unfold standardize_company_size. cbv zeta.
  repeat match goal with
         | |- context [if ?c then _ else _] =>
           destruct c; [right; vm_compute; reflexivity|]
         end.
  left. vm_compute. reflexivity.
Qed.

(** X14. The numbers of the company-size chart add up to the number of rows
    whose size is recognised: every label that [standardize_company_size]
    gives, "unspecified" apart, is a bar of the chart. *)
Theorem company_size_rows_all_counted (sizes : list value) :
  total (company_size_counts sizes)
  = List.length
      (filter (fun size =>
                 negb (str_eqb (standardize_company_size size) unspecified))
              sizes).
Proof.
  unfold company_size_counts. cbv zeta.
  rewrite (total_of_ordered size_order _ size_order_distinct).
  - induction sizes as [|size sizes IH]; [reflexivity|].
    cbn [map filter].
    destruct (negb (str_eqb (standardize_company_size size) unspecified));
      cbn [List.length]; rewrite IH; reflexivity.
  - apply Forall_forall. intros x Hx.
    apply filter_In in Hx. destruct Hx as [Hx Hspec].
    apply in_map_iff in Hx. destruct Hx as (size & <- & _).
    destruct (company_size_labels size) as [H | H]; [|exact H].
    rewrite H in Hspec. discriminate.
Qed.

(** X15. Spaces play no part in the recognition of a company size. *)
Theorem company_size_ignores_spaces (s1 s2 : pystr) :
  remove_spaces s1 = remove_spaces s2 ->
  standardize_company_size (VStr s1) = standardize_company_size (VStr s2).
Proof.
  intros H.
  assert (E : forall s, replace s (u " ") [] = remove_spaces s)
    by (intros s; exact (replace_char_remove 32 s)).
  unfold standardize_company_size. rewrite (E s1), (E s2), H. reflexivity.
Qed.

Lemma company_size_ignores_spaces_witness :
  remove_spaces (u "11 تا 50 نفر") = remove_spaces (u " 11تا50 نفر ")
  /\ standardize_company_size (VStr (u "11 تا 50 نفر"))
     = standardize_company_size (VStr (u " 11تا50 نفر ")).
Proof.
  split; [vm_compute; reflexivity|].
  apply (company_size_ignores_spaces (u "11 تا 50 نفر") (u " 11تا50 نفر ")).
  vm_compute. reflexivity.
Defined.

(** *** The seniority chart *)

(** X16. A title that is a string gets one of the four levels that the
    seniority chart lists, whatever the case tables; any other title gets
    a label that the chart does not list. *)
Theorem seniority_labels_charted (lower : pystr -> pystr) (title : value) :
  existsb (str_eqb (categorize_seniority lower title)) seniority_order
  = is_str title.
Proof.
  destruct title as [s|b|x]; [|vm_compute; reflexivity ..].
  unfold categorize_seniority. cbv zeta. cbn [is_str].
  destruct (any_keyword_in manager_keywords (lower s)); [vm_compute; reflexivity|].
  destruct (any_keyword_in senior_keywords (lower s)); [vm_compute; reflexivity|].
  destruct (any_keyword_in junior_keywords (lower s)); vm_compute; reflexivity.
Qed.

(** *** The roles of the IT chart *)

Lemma separators_replaced (s : pystr) :
  replace (replace s (u "-") (u " ")) (u "_") (u " ")
  = map separator_to_space s.
Proof.
  assert (E : forall c t, replace t [c] (u " ")
                          = map (fun x => if N.eqb c x then 32%N else x) t)
    by (intros c t; exact (replace_char_map c 32 t)).
  rewrite (E 45%N : forall t, replace t (u "-") (u " ") = _),
          (E 95%N : forall t, replace t (u "_") (u " ") = _), map_map.
  apply map_ext. intros c.
  unfold separator_to_space. rewrite (N.eqb_sym c 45), (N.eqb_sym c 95).
  destruct (N.eqb 45 c); [reflexivity|]. cbn [orb].
  destruct (N.eqb 95 c); reflexivity.
Qed.

(** X17. [standardize_it_role] reads a hyphen and an underscore as a space:
    titles that differ in nothing else, once in lower case, get the same
    role. *)
Theorem it_role_reads_separators_as_spaces
  (lower : pystr -> pystr) (title1 title2 : pystr) :
  map separator_to_space (lower title1) = map separator_to_space (lower title2) ->
  standardize_it_role lower (VStr title1) = standardize_it_role lower (VStr title2).
Proof.
  intros H. unfold standardize_it_role.
  rewrite (separators_replaced (lower title1)),
          (separators_replaced (lower title2)), H.
  reflexivity.
Qed.

Lemma it_role_reads_separators_as_spaces_witness :
  map separator_to_space (ascii_lower (u "Senior Back-End Developer"))
  = map separator_to_space (ascii_lower (u "senior back_end developer"))
  /\ standardize_it_role ascii_lower (VStr (u "Senior Back-End Developer"))
     = standardize_it_role ascii_lower (VStr (u "senior back_end developer")).
Proof.
  split; [vm_compute; reflexivity|].
  apply (it_role_reads_separators_as_spaces ascii_lower
           (u "Senior Back-End Developer") (u "senior back_end developer")).
  vm_compute. reflexivity.
Defined.

(** X18. The first rule wins, and its keywords are found with any of the three
    separators: a title that holds, once in lower case, a spelling of a
    back-end keyword with hyphens or underscores for its spaces is a
    back-end title, whatever else it holds. The hyphenated [بک-اند] that
    the field translator writes is such a spelling. *)
Theorem it_role_backend_with_any_separator
  (lower : pystr -> pystr) (title spelling : pystr) :
  In (map separator_to_space spelling) [u "back end"; u "backend"; u "بک اند"] ->
  contains spelling (lower title) = true ->
  standardize_it_role lower (VStr title) = role_backend.
Proof.
  intros Hkey Hin. unfold standardize_it_role.
  rewrite (separators_replaced (lower title)).
  apply (contains_map separator_to_space) in Hin.
  assert (Hany : any_keyword_in [u "back end"; u "backend"; u "بک اند"]
                   (map separator_to_space (lower title)) = true).
  { unfold any_keyword_in. apply existsb_exists.
    exists (map separator_to_space spelling). split; [exact Hkey | exact Hin]. }
  rewrite Hany. reflexivity.
Qed.

Lemma it_role_backend_with_any_separator_witness :
  In (map separator_to_space (u "بک-اند")) [u "back end"; u "backend"; u "بک اند"]
  /\ contains (u "بک-اند") (ascii_lower (u "توسعه دهنده بک-اند (Android)")) = true
  /\ standardize_it_role ascii_lower (VStr (u "توسعه دهنده بک-اند (Android)"))
     = role_backend.
Proof.
  assert (H1 : In (map separator_to_space (u "بک-اند"))
                  [u "back end"; u "backend"; u "بک اند"])
    by (right; right; left; vm_compute; reflexivity).
  assert (H2 : contains (u "بک-اند")
                 (ascii_lower (u "توسعه دهنده بک-اند (Android)")) = true)
    by (vm_compute; reflexivity).
  split; [exact H1|]. split; [exact H2|].
  exact (it_role_backend_with_any_separator ascii_lower
           (u "توسعه دهنده بک-اند (Android)") (u "بک-اند") H1 H2).
Defined.

End AnalysisProperties.

(** ** The numerals of the charts *)

Module ConfigProperties.

Import Config.

(** The table of [to_persian_numerals] sends each ASCII digit to the
    Persian digit of the same value, 1728 code points further, and has no
    other character. *)
Lemma persian_digit (c : codepoint) :
  match table_find persian_map c with
  | Some d => d
  | None => c
  end
  = if ((48 <=? c) && (c <=? 57))%N then (c + 1728)%N else c.
Proof.
  unfold persian_map. cbn [combine table_find].
  repeat match goal with
         | |- context [N.eqb ?k c] =>
           destruct (N.eqb_spec k c) as [<-|?]; [reflexivity|]
         end.
  destruct (N.leb_spec 48 c), (N.leb_spec c 57); cbn [andb];
    try reflexivity.
  lia.
Qed.

Lemma str_translate_persian (s : pystr) :
  str_translate persian_map s
  = map (fun c => if ((48 <=? c) && (c <=? 57))%N then (c + 1728)%N else c) s.
Proof. unfold str_translate. apply map_ext. exact persian_digit. Qed.

(** X19. On a string, [to_persian_numerals] works character by character: an
    ASCII digit becomes the Persian digit of the same value, every other
    character stays, and the length with it. *)
Theorem persian_numerals_of_string (repr_number : Q -> pystr) (s : pystr) :
  to_persian_numerals repr_number (VStr s)
  = map (fun c => if ((48 <=? c) && (c <=? 57))%N then (c + 1728)%N else c) s.
Proof. unfold to_persian_numerals. cbn [is_str negb]. apply str_translate_persian. Qed.

(** X20. Whatever the argument, the result holds no ASCII digit, and
    converting it again changes nothing. *)
Theorem persian_numerals_leave_no_ascii_digit
  (repr_number : Q -> pystr) (number_str : value) :
  let converted := to_persian_numerals repr_number number_str in
  Forall (fun c => (c < 48 \/ 57 < c)%N) converted
  /\ to_persian_numerals repr_number (VStr converted) = converted.
Proof.
  cbv zeta. unfold to_persian_numerals at 2. cbn [is_str negb].
  unfold to_persian_numerals.
  set (text := if negb (is_str number_str)
               then Pipeline.str_of repr_number number_str
               else match number_str with
                    | VStr s => s
                    | _ => []
                    end).
  rewrite !str_translate_persian. split.
  - apply Forall_forall. intros c Hc.
    apply in_map_iff in Hc. destruct Hc as (c0 & <- & _).
    destruct (N.leb_spec 48 c0), (N.leb_spec c0 57); cbn [andb]; lia.
  - rewrite map_map. apply map_ext. intros c.
    destruct (N.leb_spec 48 c), (N.leb_spec c 57); cbn [andb];
      repeat match goal with
             | |- context [N.leb ?a ?b] => destruct (N.leb_spec a b)
             end;
      cbn [andb]; try reflexivity; lia.
Qed.

End ConfigProperties.
